(** * Aequitas: the runtime shell of the bot ([src/main.py])

    A shallow embedding of [main.py]: the [AdvancedBot] hooks
    ([setup_hook], [load_extensions], [on_ready], [on_guild_join],
    [on_command_error], [on_app_command_error]), the embed helpers
    ([create_embed] and its four templates) and [main].

    Python values are modelled as the code has them: exceptions carry their
    class, and [except] clauses select by [isinstance]; floats are IEEE
    binary64 values ([spec_float]); strings are byte strings holding the
    UTF-8 encoding of the source literals; dictionaries are [gmap]s.
    Effects (logging, standard output, the clock, calls into the transport
    library) are threaded through a state-and-exception monad. *)

From Stdlib Require Import ZArith String Ascii List Lia SpecFloat.
From stdpp Require Import base decidable option list gmap strings pretty.

Local Open Scope string_scope.
Local Open Scope Z_scope.

(** ** Python runtime: exception classes *)

(** The exception classes the file names, together with the bases that
    decide which [except] clause takes them. [commands_*] are the classes of
    [discord.ext.commands], [app_commands_*] those of
    [discord.app_commands]. *)
Inductive PyClass : Set :=
| BaseException | KeyboardInterrupt | SystemExit | CancelledError
| Exception | ArithmeticError | OverflowError | ValueError
| DiscordException | HTTPException | Forbidden | HTTPNotFound
| ExtensionError | ExtensionAlreadyLoaded | NoEntryPointError
| ExtensionFailed | ExtensionNotFound
| commands_CommandError | commands_CommandNotFound | commands_CheckFailure
| commands_MissingPermissions | commands_BotMissingPermissions
| commands_CommandOnCooldown | commands_UserInputError
| commands_MissingRequiredArgument | commands_BadArgument
| commands_MemberNotFound | commands_CommandInvokeError
| app_commands_AppCommandError | app_commands_CheckFailure
| app_commands_MissingPermissions | app_commands_BotMissingPermissions
| app_commands_CommandOnCooldown | app_commands_CommandInvokeError
| app_commands_CommandNotFound.

#[global] Instance PyClass_eq_dec : EqDecision PyClass.
Proof. solve_decision. Defined.

(** The direct base class ([__bases__], all single here). *)
Definition base (c : PyClass) : option PyClass :=
  match c with
  | BaseException => None
  | KeyboardInterrupt | SystemExit | CancelledError | Exception =>
      Some BaseException
  | ArithmeticError | ValueError | DiscordException => Some Exception
  | OverflowError => Some ArithmeticError
  | HTTPException | ExtensionError | commands_CommandError
  | app_commands_AppCommandError => Some DiscordException
  | Forbidden | HTTPNotFound => Some HTTPException
  | ExtensionAlreadyLoaded | NoEntryPointError | ExtensionFailed
  | ExtensionNotFound => Some ExtensionError
  | commands_CommandNotFound | commands_CheckFailure
  | commands_CommandOnCooldown | commands_UserInputError
  | commands_CommandInvokeError => Some commands_CommandError
  | commands_MissingPermissions | commands_BotMissingPermissions =>
      Some commands_CheckFailure
  | commands_MissingRequiredArgument | commands_BadArgument =>
      Some commands_UserInputError
  | commands_MemberNotFound => Some commands_BadArgument
  | app_commands_CheckFailure | app_commands_CommandInvokeError
  | app_commands_CommandNotFound => Some app_commands_AppCommandError
  | app_commands_MissingPermissions | app_commands_BotMissingPermissions
  | app_commands_CommandOnCooldown => Some app_commands_CheckFailure
  end.

(** The method resolution order of [c], walked for at most [n] steps. *)
Fixpoint mro_upto (n : nat) (c : PyClass) : list PyClass :=
  match n with
  | O => [c]
  | S n' => c :: match base c with
                 | Some b => mro_upto n' b
                 | None => []
                 end
  end.

Definition mro : PyClass -> list PyClass := mro_upto 8.

Definition issubclass (c d : PyClass) : bool := bool_decide (d ∈ mro c).

(** ** Python runtime: floats and their formatting *)

Definition float : Set := spec_float.

(** [x * y] on binary64. *)
Definition float_mul (x y : float) : float := SFmul 53 1024 x y.

(** The float an [int] operand is converted to. *)
Definition float_of_int (n : Z) : float := binary_normalize 53 1024 n 0 false.

(** The integer nearest to [m * 2^e], a tie going to the even neighbour. *)
Definition round_half_even (m e : Z) : Z :=
  if 0 <=? e then m * 2 ^ e
  else
    let den := 2 ^ (- e) in
    let q := m / den in
    let r := m mod den in
    if 2 * r <? den then q
    else if den <? 2 * r then q + 1
    else if Z.even q then q else q + 1.

Definition digit (d : Z) : string :=
  String (pretty_N_char (Z.to_N d)) EmptyString.

(** [n] hundredths written with two places after the point ([0 <= n]). *)
Definition hundredths (n : Z) : string :=
  pretty (n / 100) +:+ "." +:+ digit (n / 10 mod 10) +:+ digit (n mod 10).

(** [format(x, '.2f')]: the decimal with two fractional digits nearest to
    the exact value of [x] (ties to even), the sign bit kept. *)
Definition format_2f (x : float) : string :=
  match x with
  | S754_nan => "nan"
  | S754_infinity s => if s then "-inf" else "inf"
  | S754_zero s => if s then "-0.00" else "0.00"
  | S754_finite s m e =>
      (if s then "-" else "") +:+ hundredths (round_half_even (100 * Z.pos m) e)
  end.

(** ** Exceptions as values *)

(** An exception instance: its class, [str(e)], and the two attributes the
    handlers read ([retry_after] of the cooldown errors, [param.name] of
    [MissingRequiredArgument]; unused for the other classes). *)
Record PyExc : Set := {
  exc_class : PyClass;
  exc_str : string;
  retry_after : float;
  param_name : string
}.

Definition new_exc (c : PyClass) (msg : string) : PyExc :=
  {| exc_class := c; exc_str := msg;
     retry_after := S754_zero false; param_name := "" |}.

Definition isinstance (e : PyExc) (c : PyClass) : bool :=
  issubclass (exc_class e) c.

(** ** Embeds ([discord.Embed]) *)

(** An instant, as the clock gives it. *)
Definition datetime : Set := Z.

Record EmbedField : Set := {
  field_name : string;
  field_value : string;
  field_inline : bool
}.

(** [str(x)] of an optional string ([None] prints as its name). *)
Definition str_opt (x : option string) : string := default "None" x.

(** The author and the footer as the embed keeps them: [set_author] stores
    [str(name)] whatever the name is, and each of the other entries only
    when it is not [None]. *)
Record EmbedAuthor : Set := {
  author_name : string;
  author_icon_url : option string;
  author_url : option string
}.

Record EmbedFooter : Set := {
  footer_text : option string;
  footer_icon_url : option string
}.

Record Embed : Set := {
  emb_title : option string;
  emb_description : option string;
  emb_color : Z;
  emb_timestamp : option datetime;
  emb_fields : list EmbedField;
  emb_thumbnail : option string;
  emb_image : option string;
  emb_author : option EmbedAuthor;
  emb_footer : option EmbedFooter
}.

(** [discord.Embed(title=, description=, color=, timestamp=)]. *)
Definition Embed_new (title description : option string) (color : Z)
    (timestamp : option datetime) : Embed :=
  {| emb_title := title; emb_description := description; emb_color := color;
     emb_timestamp := timestamp; emb_fields := []; emb_thumbnail := None;
     emb_image := None; emb_author := None; emb_footer := None |}.

Definition set_description (d : string) (e : Embed) : Embed :=
  {| emb_title := emb_title e; emb_description := Some d;
     emb_color := emb_color e; emb_timestamp := emb_timestamp e;
     emb_fields := emb_fields e; emb_thumbnail := emb_thumbnail e;
     emb_image := emb_image e; emb_author := emb_author e;
     emb_footer := emb_footer e |}.

Definition add_field (name value : string) (inline : bool) (e : Embed) : Embed :=
  {| emb_title := emb_title e; emb_description := emb_description e;
     emb_color := emb_color e; emb_timestamp := emb_timestamp e;
     emb_fields := emb_fields e ++ [{| field_name := name; field_value := value;
                                       field_inline := inline |}];
     emb_thumbnail := emb_thumbnail e; emb_image := emb_image e;
     emb_author := emb_author e; emb_footer := emb_footer e |}.

Definition set_thumbnail (url : option string) (e : Embed) : Embed :=
  {| emb_title := emb_title e; emb_description := emb_description e;
     emb_color := emb_color e; emb_timestamp := emb_timestamp e;
     emb_fields := emb_fields e; emb_thumbnail := url;
     emb_image := emb_image e; emb_author := emb_author e;
     emb_footer := emb_footer e |}.

Definition set_image (url : option string) (e : Embed) : Embed :=
  {| emb_title := emb_title e; emb_description := emb_description e;
     emb_color := emb_color e; emb_timestamp := emb_timestamp e;
     emb_fields := emb_fields e; emb_thumbnail := emb_thumbnail e;
     emb_image := url; emb_author := emb_author e;
     emb_footer := emb_footer e |}.

Definition set_author (name icon_url url : option string) (e : Embed) : Embed :=
  {| emb_title := emb_title e; emb_description := emb_description e;
     emb_color := emb_color e; emb_timestamp := emb_timestamp e;
     emb_fields := emb_fields e; emb_thumbnail := emb_thumbnail e;
     emb_image := emb_image e;
     emb_author := Some {| author_name := str_opt name;
                           author_icon_url := icon_url;
                           author_url := url |};
     emb_footer := emb_footer e |}.

Definition set_footer (text icon_url : option string) (e : Embed) : Embed :=
  {| emb_title := emb_title e; emb_description := emb_description e;
     emb_color := emb_color e; emb_timestamp := emb_timestamp e;
     emb_fields := emb_fields e; emb_thumbnail := emb_thumbnail e;
     emb_image := emb_image e; emb_author := emb_author e;
     emb_footer := Some {| footer_text := text;
                           footer_icon_url := icon_url |} |}.

(** ** The world the handlers act on *)

Inductive Level : Set := INFO | ERROR.

(** One line of the log sink: [name - level - message]. *)
Record LogRecord : Set := {
  log_name : string;
  log_level : Level;
  log_message : string
}.

(** The awaited calls into the transport library. A call is recorded when
    it is made, whether it then succeeds or raises. *)
Inductive Call : Set :=
| load_extension (name : string)
| tree_sync
| change_presence (activity_type activity_name : string)
| channel_send (channel : Z) (embed : Embed)
| ctx_send (channel : Z) (embed : Embed) (ephemeral : bool)
| response_send_message (interaction : nat) (embed : Embed) (ephemeral : bool)
| followup_send (interaction : nat) (embed : Embed) (ephemeral : bool)
| bot_start (token : string)
| bot_close.

(** What the library and the platform do with a call, given the calls made
    before it: [outcome] is [None] when the call returns and [Some e] when
    it raises [e]; [synced] is the length of the list [tree.sync()]
    returns. *)
Record Platform : Type := {
  outcome : list Call -> Call -> option PyExc;
  synced : list Call -> nat
}.

Record World : Type := {
  w_now : datetime;                  (* the clock, [datetime.utcnow()] *)
  w_environ : gmap string string;    (* the process environment *)
  w_traceback : string;              (* what [traceback.format_exc()] gives *)
  w_log : list LogRecord;            (* the log sink, oldest line first *)
  w_stdout : list string;            (* lines printed *)
  w_calls : list Call;               (* library calls made, oldest first *)
  w_responded : gset nat             (* interactions already responded to *)
}.

Inductive Res (A : Type) : Type :=
| Ret (a : A)
| Raise (e : PyExc).
Arguments Ret {A} a.
Arguments Raise {A} e.

(** A computation: a normal result or a raised exception, and the world
    it leaves. *)
Definition M (A : Type) : Type := World -> Res A * World.

#[global] Instance M_ret : MRet M := fun A a w => (Ret a, w).

#[global] Instance M_bind : MBind M := fun A B f m w =>
  match m w with
  | (Ret a, w') => f a w'
  | (Raise e, w') => (Raise e, w')
  end.

Definition raise {A} (e : PyExc) : M A := fun w => (Raise e, w).

(** [try: body / except C1: h1 / except C2: h2 ...]: the first clause whose
    test accepts the exception handles it; with none, it propagates. *)
Definition try_except {A} (body : M A)
    (clauses : list ((PyExc -> bool) * (PyExc -> M A))) : M A :=
  fun w =>
    match body w with
    | (Ret a, w') => (Ret a, w')
    | (Raise e, w') =>
        match List.find (fun cl => fst cl e) clauses with
        | Some cl => snd cl e w'
        | None => (Raise e, w')
        end
    end.

(** A bare [except:] takes every exception. *)
Definition bare (_ : PyExc) : bool := true.

Definition pass {A} (_ : A) : M unit := mret tt.

Definition add_log (l : LogRecord) (w : World) : World :=
  {| w_now := w_now w; w_environ := w_environ w;
     w_traceback := w_traceback w; w_log := w_log w ++ [l];
     w_stdout := w_stdout w; w_calls := w_calls w;
     w_responded := w_responded w |}.

Definition log_line (name : string) (lvl : Level) (msg : string) : M unit :=
  fun w =>
    (Ret tt,
     add_log {| log_name := name; log_level := lvl; log_message := msg |} w).

(** [self.logger = logging.getLogger('AdvancedBot')]. *)
Definition logger_info : string -> M unit := log_line "AdvancedBot" INFO.
Definition logger_error : string -> M unit := log_line "AdvancedBot" ERROR.

(** [logging.error], the root logger. *)
Definition logging_error : string -> M unit := log_line "root" ERROR.

Definition add_stdout (s : string) (w : World) : World :=
  {| w_now := w_now w; w_environ := w_environ w;
     w_traceback := w_traceback w; w_log := w_log w;
     w_stdout := w_stdout w ++ [s]; w_calls := w_calls w;
     w_responded := w_responded w |}.

Definition print (s : string) : M unit := fun w => (Ret tt, add_stdout s w).

Definition utcnow : M datetime := fun w => (Ret (w_now w), w).

Definition format_exc : M string := fun w => (Ret (w_traceback w), w).

Definition getenv (k : string) : M (option string) :=
  fun w => (Ret (w_environ w !! k), w).

Definition record_call (c : Call) (w : World) : World :=
  {| w_now := w_now w; w_environ := w_environ w;
     w_traceback := w_traceback w; w_log := w_log w;
     w_stdout := w_stdout w; w_calls := w_calls w ++ [c];
     w_responded := w_responded w |}.

(** [await] of a library call. *)
Definition call (plat : Platform) (c : Call) : M unit :=
  fun w =>
    match outcome plat (w_calls w) c with
    | None => (Ret tt, record_call c w)
    | Some e => (Raise e, record_call c w)
    end.

(** [await self.tree.sync()], giving [len] of what it returns. *)
Definition sync (plat : Platform) : M nat :=
  fun w =>
    match outcome plat (w_calls w) tree_sync with
    | None => (Ret (synced plat (w_calls w)), record_call tree_sync w)
    | Some e => (Raise e, record_call tree_sync w)
    end.

(** [interaction.response.is_done()]. *)
Definition is_done (interaction : nat) : M bool :=
  fun w => (Ret (bool_decide (interaction ∈ w_responded w)), w).

Definition mark_responded (interaction : nat) : M unit :=
  fun w =>
    (Ret tt,
     {| w_now := w_now w; w_environ := w_environ w;
        w_traceback := w_traceback w; w_log := w_log w;
        w_stdout := w_stdout w; w_calls := w_calls w;
        w_responded := {[interaction]} ∪ w_responded w |}).

(** [await interaction.response.send_message(...)]: once it has gone
    through, the interaction counts as responded. *)
Definition send_message (plat : Platform) (interaction : nat)
    (embed : Embed) (ephemeral : bool) : M unit :=
  call plat (response_send_message interaction embed ephemeral) ;;
  mark_responded interaction.

(** [round(x)] of a float: the nearest [int], ties to even; the two
    non-numbers raise. *)
Definition py_round (x : float) : Res Z :=
  match x with
  | S754_nan => Raise (new_exc ValueError "cannot convert float NaN to integer")
  | S754_infinity _ =>
      Raise (new_exc OverflowError "cannot convert float infinity to integer")
  | S754_zero _ => Ret 0
  | S754_finite s m e =>
      let n := round_half_even (Z.pos m) e in Ret (if s then - n else n)
  end.

(** A pure step that may raise, run inside a handler. *)
Definition lift {A} (r : Res A) : M A := fun w => (r, w).

(** Truth of an optional string and of an optional dictionary: [None] and
    the empty value are false. *)
Definition truthy (x : option string) : bool :=
  match x with
  | Some s => negb (bool_decide (s = ""))
  | None => false
  end.

Definition truthy_dict (x : option (gmap string string)) : bool :=
  match x with
  | Some d => negb (bool_decide (d = ∅))
  | None => false
  end.

(** ** The bot *)

Record Permissions : Set := { send_messages : bool }.

Record TextChannel : Set := {
  channel_id : Z;
  permissions_for : Z -> Permissions   (* by member id *)
}.

Record Guild : Set := {
  guild_name : string;
  guild_id : Z;
  member_count : nat;
  guild_icon : option string;          (* [guild.icon.url], if any *)
  text_channels : list TextChannel;
  guild_me : Z                         (* the agent as a member *)
}.

(** What the hooks read of [self]. *)
Record Bot : Set := {
  user_name : string;
  user_avatar : option string;         (* [self.user.avatar.url], if any *)
  guilds : list Guild;
  users : list Z;
  latency : float                      (* seconds *)
}.

(** What the legacy handler reads of [ctx]. *)
Record Context : Set := {
  ctx_channel : Z;
  ctx_command : option string          (* [str(ctx.command)], if any *)
}.

Definition modules : list string :=
  ["cogs.moderation"; "cogs.utility"; "cogs.fun"; "cogs.music";
   "cogs.economy"; "cogs.admin"].

(** The body of the loop of [load_extensions]. *)
Definition load_module (plat : Platform) (module : string) : M unit :=
  try_except
    (call plat (load_extension module) ;;
     logger_info ("Loaded " +:+ module))
    [(fun e => isinstance e Exception,
      fun e => logger_error ("Failed to load " +:+ module +:+ ": " +:+ exc_str e))].

(** [for module in ms: ...]. *)
Fixpoint load_each (plat : Platform) (ms : list string) : M unit :=
  match ms with
  | [] => mret tt
  | module :: rest => load_module plat module ;; load_each plat rest
  end.

Definition load_extensions (plat : Platform) : M unit :=
  load_each plat modules.

Definition setup_hook (plat : Platform) (self : Bot) : M unit :=
  logger_info "Starting bot setup..." ;;
  load_extensions plat ;;
  try_except
    (n ← sync plat;
     logger_info ("Synced " +:+ pretty n +:+ " command(s)"))
    [(fun e => isinstance e Exception,
      fun e => logger_error ("Failed to sync commands: " +:+ exc_str e))] ;;
  logger_info "Bot setup completed!".

(** Lines 71-80 of [on_ready]: the status embed. *)
Definition on_ready_embed (self : Bot) : M Embed :=
  ts ← utcnow;
  let embed :=
    Embed_new (Some "🤖 Bot Online")
      (Some ("**" +:+ user_name self +:+ "** is now online and ready!"))
      0x00ff00 (Some ts) in
  let embed := add_field "Servers" (pretty (length (guilds self))) true embed in
  let embed := add_field "Users" (pretty (length (users self))) true embed in
  ms ← lift (py_round (float_mul (latency self) (float_of_int 1000)));
  let embed := add_field "Latency" (pretty ms +:+ "ms") true embed in
  mret (set_thumbnail (user_avatar self) embed).

Definition on_ready (plat : Platform) (self : Bot) : M unit :=
  _ ← on_ready_embed self;
  logger_info ("Bot is ready! Logged in as " +:+ user_name self) ;;
  call plat (change_presence "watching"
               (pretty (length (guilds self)) +:+ " servers")).

(** The order in which the transport runs the two startup hooks: [on_ready]
    is dispatched only after [setup_hook] has returned; an exception
    escaping [setup_hook] aborts the start. *)
Definition startup (plat : Platform) (self : Bot) : M unit :=
  setup_hook plat self ;; on_ready plat self.

(** Lines 94-103 of [on_guild_join]: the welcome embed. *)
Definition guild_join_embed (guild : Guild) : M Embed :=
  ts ← utcnow;
  let embed :=
    Embed_new (Some "🎉 Joined New Server!")
      (Some ("Thanks for adding me to **" +:+ guild_name guild +:+ "**!"))
      0x00ff00 (Some ts) in
  let embed := add_field "Server Name" (guild_name guild) true embed in
  let embed := add_field "Member Count" (pretty (member_count guild)) true embed in
  let embed := add_field "Server ID" (pretty (guild_id guild)) true embed in
  mret (set_thumbnail (guild_icon guild) embed).

(** Lines 106-110: the scan for a channel, stopping at the first hit. *)
Fixpoint find_channel (me : Z) (chs : list TextChannel) : option TextChannel :=
  match chs with
  | [] => None
  | ch :: rest =>
      if send_messages (permissions_for ch me) then Some ch
      else find_channel me rest
  end.

Definition on_guild_join (plat : Platform) (self : Bot) (guild : Guild) : M unit :=
  embed ← guild_join_embed guild;
  match find_channel (guild_me guild) (text_channels guild) with
  | Some channel =>
      try_except (call plat (channel_send (channel_id channel) embed))
        [(fun e => isinstance e Forbidden, pass)]
  | None => mret tt
  end ;;
  logger_info ("Joined guild: " +:+ guild_name guild +:+ " (ID: "
               +:+ pretty (guild_id guild) +:+ ")").

(** Lines 125-144 of [on_command_error]: the embed and its description. *)
Definition command_error_embed (ctx : Context) (error : PyExc) : M Embed :=
  ts ← utcnow;
  let embed := Embed_new (Some "❌ Command Error") None 0xff0000 (Some ts) in
  if isinstance error commands_MissingPermissions then
    mret (set_description "You don't have permission to use this command." embed)
  else if isinstance error commands_BotMissingPermissions then
    mret (set_description
            "I don't have the required permissions to execute this command." embed)
  else if isinstance error commands_CommandOnCooldown then
    mret (set_description
            ("Command is on cooldown. Try again in "
             +:+ format_2f (retry_after error) +:+ " seconds.") embed)
  else if isinstance error commands_MissingRequiredArgument then
    mret (set_description
            ("Missing required argument: `" +:+ param_name error +:+ "`") embed)
  else if isinstance error commands_BadArgument then
    mret (set_description "Invalid argument provided." embed)
  else
    let embed := set_description "An unexpected error occurred." embed in
    logger_error ("Unexpected error in command " +:+ str_opt (ctx_command ctx)
                  +:+ ": " +:+ exc_str error) ;;
    tb ← format_exc;
    logger_error tb ;;
    mret embed.

Definition on_command_error (plat : Platform) (self : Bot) (ctx : Context)
    (error : PyExc) : M unit :=
  if isinstance error commands_CommandNotFound then mret tt
  else
    embed ← command_error_embed ctx error;
    try_except (call plat (ctx_send (ctx_channel ctx) embed true))
      [(bare, pass)].

(** Lines 153-168 of [on_app_command_error]. *)
Definition app_command_error_embed (error : PyExc) : M Embed :=
  ts ← utcnow;
  let embed := Embed_new (Some "❌ Command Error") None 0xff0000 (Some ts) in
  if isinstance error app_commands_MissingPermissions then
    mret (set_description "You don't have permission to use this command." embed)
  else if isinstance error app_commands_BotMissingPermissions then
    mret (set_description
            "I don't have the required permissions to execute this command." embed)
  else if isinstance error app_commands_CommandOnCooldown then
    mret (set_description
            ("Command is on cooldown. Try again in "
             +:+ format_2f (retry_after error) +:+ " seconds.") embed)
  else
    let embed := set_description "An unexpected error occurred." embed in
    logger_error ("Unexpected error in slash command: " +:+ exc_str error) ;;
    tb ← format_exc;
    logger_error tb ;;
    mret embed.

(** Lines 170-176: the delivery, the response state read inside the [try]. *)
Definition deliver (plat : Platform) (interaction : nat) (embed : Embed) : M unit :=
  try_except
    (done ← is_done interaction;
     if done : bool then call plat (followup_send interaction embed true)
     else send_message plat interaction embed true)
    [(bare, pass)].

Definition on_app_command_error (plat : Platform) (self : Bot)
    (interaction : nat) (error : PyExc) : M unit :=
  embed ← app_command_error_embed error;
  deliver plat interaction embed.

Definition on_error (self : Bot) (event : string) : M unit :=
  tb ← format_exc;
  logger_error ("Error in event " +:+ event +:+ ": " +:+ tb).

(** ** The embed helpers *)

(** The default of [create_embed]'s [color]. *)
Definition default_color : Z := 0x2f3136.

(** [create_embed]; [color] is [None] when the caller leaves the argument
    out, the other arguments are [None] when left out or passed as such. *)
Definition create_embed (title description : option string) (color : option Z)
    (author : option (gmap string string)) (thumbnail image : option string)
    (footer : option (gmap string string)) (timestamp : option datetime)
    : M Embed :=
  ts ← match timestamp with
       | Some t => mret t
       | None => utcnow
       end;
  let embed :=
    Embed_new title description (default default_color color) (Some ts) in
  let embed :=
    if truthy_dict author then
      let d := default ∅ author in
      set_author (d !! "name") (d !! "icon_url") (d !! "url") embed
    else embed in
  let embed := if truthy thumbnail then set_thumbnail thumbnail embed else embed in
  let embed := if truthy image then set_image image embed else embed in
  let embed :=
    if truthy_dict footer then
      let d := default ∅ footer in
      set_footer (d !! "text") (d !! "icon_url") embed
    else embed in
  mret embed.

Definition success_embed (title : string) (description : option string) : M Embed :=
  create_embed (Some ("✅ " +:+ title)) description (Some 0x00ff00)
    None None None None None.

Definition error_embed (title : string) (description : option string) : M Embed :=
  create_embed (Some ("❌ " +:+ title)) description (Some 0xff0000)
    None None None None None.

Definition warning_embed (title : string) (description : option string) : M Embed :=
  create_embed (Some ("⚠️ " +:+ title)) description (Some 0xffaa00)
    None None None None None.

Definition info_embed (title : string) (description : option string) : M Embed :=
  create_embed (Some ("ℹ️ " +:+ title)) description (Some 0x0099ff)
    None None None None None.

(** ** [main] and the process *)

(** [main]. Constructing [AdvancedBot()] touches nothing of the world, so
    the model starts at the lookup of the token. *)
Definition main (plat : Platform) : M unit :=
  token ← getenv "DISCORD_TOKEN";
  if negb (truthy token) then
    print "Error: DISCORD_TOKEN environment variable not set!"
  else
    try_except (call plat (bot_start (default "" token)))
      [(fun e => isinstance e KeyboardInterrupt,
        fun _ => call plat bot_close);
       (fun e => isinstance e Exception,
        fun e => logging_error ("Fatal error: " +:+ exc_str e) ;;
                 call plat bot_close)].

(** The status the interpreter ends with after [asyncio.run(main())]: 0
    when [main] returns, non-zero when an exception escapes it ([None]
    stands for the code a [SystemExit] carries). *)
Definition exit_status (r : Res unit) : option Z :=
  match r with
  | Ret _ => Some 0
  | Raise e =>
      if isinstance e SystemExit then None
      else if isinstance e KeyboardInterrupt then Some 130
      else Some 1
  end.

Definition run_script (plat : Platform) (w : World) : option Z * World :=
  let (r, w') := main plat w in (exit_status r, w').

(** ** The vocabulary of the specification *)

(** The [kind] of a [CommandErrorEvent]. *)
Inductive ErrorKind : Set :=
| NotFound
| MissingUserPermission
| MissingAgentPermission
| OnCooldown (retryAfterSeconds : float)
| MissingArgument (paramName : string)
| BadArgument
| Unexpected (detail : string).

(** The kind of an error raised on the legacy path: the tag of the
    [discord.ext.commands] class it is an instance of, with the value the
    tag carries; [Unexpected] for an instance of none of them. *)
Definition legacy_kind (error : PyExc) : ErrorKind :=
  if isinstance error commands_CommandNotFound then NotFound
  else if isinstance error commands_MissingPermissions then MissingUserPermission
  else if isinstance error commands_BotMissingPermissions then MissingAgentPermission
  else if isinstance error commands_CommandOnCooldown then OnCooldown (retry_after error)
  else if isinstance error commands_MissingRequiredArgument then
    MissingArgument (param_name error)
  else if isinstance error commands_BadArgument then BadArgument
  else Unexpected (exc_str error).

(** The message table of the legacy classifier as the specification prints
    it; [NotFound] has no row. *)
Definition spec_template (k : ErrorKind) : option string :=
  match k with
  | NotFound => None
  | MissingUserPermission =>
      Some "You don't have permission to use this command."
  | MissingAgentPermission =>
      Some "I don't have the required permissions to execute this command."
  | OnCooldown r =>
      Some ("Command is on cooldown. Try again in " +:+ format_2f r +:+ " seconds.")
  | MissingArgument p => Some ("Missing required argument: `" +:+ p +:+ "`.")
  | BadArgument => Some "Invalid argument provided."
  | Unexpected _ => Some "An unexpected error occurred."
  end.

(** The same table with the [MissingArgument] row ending at the closing
    backquote. *)
Definition legacy_template (k : ErrorKind) : option string :=
  match k with
  | MissingArgument p => Some ("Missing required argument: `" +:+ p +:+ "`")
  | _ => spec_template k
  end.

(** A float that denotes a number. *)
Definition is_finite (x : float) : bool :=
  match x with
  | S754_zero _ | S754_finite _ _ _ => true
  | S754_infinity _ | S754_nan => false
  end.

Definition is_digit (a : ascii) : bool :=
  let n := nat_of_ascii a in (48 <=? n)%nat && (n <=? 57)%nat.

Fixpoint all_digits (s : string) : bool :=
  match s with
  | EmptyString => true
  | String a s' => is_digit a && all_digits s'
  end.

(** One or more digits, a point, and exactly two digits. *)
Fixpoint unsigned_two_places (s : string) : bool :=
  match s with
  | EmptyString => false
  | String a s' =>
      is_digit a &&
      match s' with
      | String "."%char (String d1 (String d2 EmptyString)) =>
          is_digit d1 && is_digit d2
      | _ => unsigned_two_places s'
      end
  end.

(** A decimal numeral with exactly two places after the point, with or
    without a minus sign. *)
Definition two_places (s : string) : bool :=
  match s with
  | String "-"%char s' => unsigned_two_places s'
  | _ => unsigned_two_places s
  end.

(** The platform on which every call goes through. *)
Definition reliable : Platform :=
  {| outcome := fun _ _ => None; synced := fun _ => O |}.

(** The embed a call delivers, if it is a delivery. *)
Definition call_embed (c : Call) : option Embed :=
  match c with
  | channel_send _ e | ctx_send _ e _ | response_send_message _ e _
  | followup_send _ e _ => Some e
  | _ => None
  end.

(** The embeds handed to the platform between the world [w] and the later
    world [w']. *)
Definition sent_between (w w' : World) : list Embed :=
  omap call_embed (drop (length (w_calls w)) (w_calls w')).

(** The call [deliver] makes in a world: chosen by the response state of
    that world. *)
Definition delivery (interaction : nat) (embed : Embed) (w : World) : Call :=
  if bool_decide (interaction ∈ w_responded w)
  then followup_send interaction embed true
  else response_send_message interaction embed true.

(** The three fields of the status embed, [ms] being the latency in
    milliseconds. *)
Definition status_fields (self : Bot) (ms : Z) : list EmbedField :=
  [{| field_name := "Servers"; field_value := pretty (length (guilds self));
      field_inline := true |};
   {| field_name := "Users"; field_value := pretty (length (users self));
      field_inline := true |};
   {| field_name := "Latency"; field_value := pretty ms +:+ "ms";
      field_inline := true |}].

(** The embed a template owes a title and a description: the glyph put
    before the title, the template's color, the time of construction, and
    nothing else. *)
Definition template_embed (glyph : string) (color : Z) (title : string)
    (description : option string) (ts : datetime) : Embed :=
  {| emb_title := Some (glyph +:+ title); emb_description := description;
     emb_color := color; emb_timestamp := Some ts; emb_fields := [];
     emb_thumbnail := None; emb_image := None; emb_author := None;
     emb_footer := None |}.

(** The bytes of a string. *)
Definition bytes (s : string) : list nat :=
  map nat_of_ascii (list_ascii_of_string s).

(** The header both error classifiers give their notification. *)
Definition has_error_header (ts : datetime) (e : Embed) : Prop :=
  emb_title e = Some "❌ Command Error" /\ emb_color e = 0xff0000 /\
  emb_timestamp e = Some ts.

Definition can_send (me : Z) (ch : TextChannel) : bool :=
  send_messages (permissions_for ch me).

(** [r] is the first channel of [chs], in order, the agent may send to;
    [None] when there is none. *)
Definition first_sendable (me : Z) (chs : list TextChannel)
    (r : option TextChannel) : Prop :=
  match r with
  | Some ch =>
      exists pre post, chs = (pre ++ ch :: post)%list /\
        Forall (fun c => can_send me c = false) pre /\ can_send me ch = true
  | None => Forall (fun c => can_send me c = false) chs
  end.

(** The log line the loader owes a module, by the outcome of loading it. *)
Definition load_line (module : string) (o : option PyExc) : LogRecord :=
  match o with
  | None => {| log_name := "AdvancedBot"; log_level := INFO;
               log_message := "Loaded " +:+ module |}
  | Some e => {| log_name := "AdvancedBot"; log_level := ERROR;
                 log_message := "Failed to load " +:+ module +:+ ": "
                                +:+ exc_str e |}
  end.

(** One line per module of [ms], in order, each module tried after the
    calls [before] and the attempts on the modules ahead of it. *)
Fixpoint load_report (plat : Platform) (before : list Call) (ms : list string)
    : list LogRecord :=
  match ms with
  | [] => []
  | module :: rest =>
      load_line module (outcome plat before (load_extension module))
      :: load_report plat (before ++ [load_extension module]) rest
  end.

(** Whenever the call [c] fails, it fails with an [Exception] (as the
    errors the library documents for [load_extension] and [tree.sync]
    are), not with an interrupt or a cancellation. *)
Definition failures_are_exceptions (plat : Platform) (c : Call) : Prop :=
  forall before e,
    outcome plat before c = Some e -> isinstance e Exception = true.

(** The value a run returned, if it returned. *)
Definition returned {A} (x : Res A * World) : option A :=
  match fst x with
  | Ret a => Some a
  | Raise _ => None
  end.

Definition info_line (msg : string) : LogRecord :=
  {| log_name := "AdvancedBot"; log_level := INFO; log_message := msg |}.

Definition error_line (msg : string) : LogRecord :=
  {| log_name := "AdvancedBot"; log_level := ERROR; log_message := msg |}.

(** ** Sample inputs *)

Definition sample_world : World :=
  {| w_now := 1700000000; w_environ := ∅; w_traceback := "NoneType: None";
     w_log := []; w_stdout := []; w_calls := []; w_responded := ∅ |}.

Definition sample_guild (name : string) (id : Z) : Guild :=
  {| guild_name := name; guild_id := id; member_count := 12;
     guild_icon := None; text_channels := []; guild_me := 1 |}.

(** 0.042 seconds: [6052837899185947 * 2^-57]. *)
Definition sample_latency : float := S754_finite false 6052837899185947 (-57).

Definition sample_bot : Bot :=
  {| user_name := "Aequitas"; user_avatar := None;
     guilds := [sample_guild "alpha" 10; sample_guild "beta" 11;
                sample_guild "gamma" 12];
     users := [100; 101; 102; 103; 104; 105; 106];
     latency := sample_latency |}.

Definition sample_ctx : Context :=
  {| ctx_channel := 5; ctx_command := Some "ban" |}.

Definition sample_error (c : PyClass) : PyExc :=
  {| exc_class := c; exc_str := "boom";
     retry_after := S754_finite false 6023564501608038 (-51);   (* 2.675 *)
     param_name := "member" |}.

(** A platform on which the calls satisfying [fails] raise [e] and every
    other call goes through. *)
Definition failing (fails : Call -> bool) (e : PyExc) : Platform :=
  {| outcome := fun _ call => if fails call then Some e else None;
     synced := fun _ => O |}.

Definition utility_failed : PyExc :=
  new_exc ExtensionFailed
    "Extension 'cogs.utility' raised an error: ImportError: no module named 'yt_dlp'".

Definition sync_failed : PyExc :=
  new_exc HTTPException "503 Service Unavailable (error code: 0)".

Definition send_failed : PyExc :=
  new_exc HTTPException "500 Internal Server Error (error code: 0)".

Definition send_forbidden : PyExc :=
  new_exc Forbidden "403 Forbidden (error code: 50013): Missing Permissions".

Definition is_sync (c : Call) : bool :=
  match c with tree_sync => true | _ => false end.

Definition is_channel_send (c : Call) : bool :=
  match c with channel_send _ _ => true | _ => false end.

Definition is_load_of (module : string) (c : Call) : bool :=
  match c with
  | load_extension m => bool_decide (m = module)
  | _ => false
  end.

Definition sample_channel (id : Z) (sendable : bool) : TextChannel :=
  {| channel_id := id;
     permissions_for := fun _ => {| send_messages := sendable |} |}.

Definition sample_join : Guild :=
  {| guild_name := "delta"; guild_id := 13; member_count := 40;
     guild_icon := None;
     text_channels := [sample_channel 1 false; sample_channel 2 true;
                       sample_channel 3 true];
     guild_me := 1 |}.

(** The sample bot with the same name and another status. *)
Definition idle_bot : Bot :=
  {| user_name := "Aequitas"; user_avatar := None; guilds := [];
     users := []; latency := S754_zero false |}.


(** ** Vocabulary for the remaining hooks *)

(** The kind of an error raised on the interaction path, by the
    [discord.app_commands] class it is an instance of. *)
Definition interaction_kind (error : PyExc) : ErrorKind :=
  if isinstance error app_commands_MissingPermissions then MissingUserPermission
  else if isinstance error app_commands_BotMissingPermissions then
    MissingAgentPermission
  else if isinstance error app_commands_CommandOnCooldown then
    OnCooldown (retry_after error)
  else Unexpected (exc_str error).

(** The same exception with another text. *)
Definition with_str (s : string) (e : PyExc) : PyExc :=
  {| exc_class := exc_class e; exc_str := s;
     retry_after := retry_after e; param_name := param_name e |}.

(** Where the loop over [ms] is cut short, if it is: the index of the first
    module whose loading raises something that is not an [Exception], and
    what it raises. *)
Fixpoint interrupted_at (plat : Platform) (before : list Call)
    (ms : list string) : option (nat * PyExc) :=
  match ms with
  | [] => None
  | module :: rest =>
      let later :=
        prod_map S id
          <$> interrupted_at plat (before ++ [load_extension module]) rest in
      match outcome plat before (load_extension module) with
      | Some e => if isinstance e Exception then later else Some (O, e)
      | None => later
      end
  end.



Definition root_error (msg : string) : LogRecord :=
  {| log_name := "root"; log_level := ERROR; log_message := msg |}.

(** The presence [on_ready] sets. *)
Definition presence (self : Bot) : Call :=
  change_presence "watching" (pretty (length (guilds self)) +:+ " servers").

(** A bot whose heartbeat has not been acknowledged yet. *)
Definition unacked_bot : Bot :=
  {| user_name := "Aequitas"; user_avatar := None; guilds := [];
     users := []; latency := S754_infinity false |}.

Definition world_with_token (token : string) : World :=
  {| w_now := 1700000000; w_environ := {["DISCORD_TOKEN" := token]};
     w_traceback := "NoneType: None"; w_log := []; w_stdout := [];
     w_calls := []; w_responded := ∅ |}.

Definition is_start (c : Call) : bool :=
  match c with bot_start _ => true | _ => false end.

Definition login_failed : PyExc :=
  new_exc Exception "Improper token has been passed.".

Definition interrupt : PyExc := new_exc KeyboardInterrupt "".

Definition cancelled : PyExc := new_exc CancelledError "".

(** * Properties *)

(** ** Rounding and the two-place format *)

Section Rounding.
Variables m e : Z.
Hypothesis m_nonneg : 0 <= m.

Lemma round_half_even_nonneg : 0 <= round_half_even m e.
Proof.
  unfold round_half_even.
  destruct (Z.leb_spec 0 e) as [He|He]; [ | cbv zeta ].
  - apply Z.mul_nonneg_nonneg; [lia | apply Z.pow_nonneg; lia].
  - assert (Hd : 0 < 2 ^ (- e)) by (apply Z.pow_pos_nonneg; lia).
    pose proof (Z.div_pos m (2 ^ (- e)) m_nonneg Hd).
    repeat case_match; lia.
Qed.

(** With a non-negative exponent the value is an integer already. *)
Lemma round_half_even_exact : 0 <= e -> round_half_even m e = m * 2 ^ e.
Proof.
  intros He. unfold round_half_even.
  destruct (Z.leb_spec 0 e); [reflexivity | lia].
Qed.

(** Otherwise the result is within half a unit of [m / 2^-e], and even
    when exactly half a unit away. *)
Lemma round_half_even_nearest :
  e < 0 ->
  let n := round_half_even m e in
  Z.abs (2 * (n * 2 ^ (- e) - m)) <= 2 ^ (- e) /\
  (Z.abs (2 * (n * 2 ^ (- e) - m)) = 2 ^ (- e) -> Z.even n = true).
Proof.
  intros He. unfold round_half_even.
  destruct (Z.leb_spec 0 e) as [?|_]; [lia | cbv zeta].
  set (den := 2 ^ (- e)).
  assert (Hd : 0 < den) by (apply Z.pow_pos_nonneg; lia).
  pose proof (Z.div_mod m den ltac:(lia)) as Hdm.
  pose proof (Z.mod_pos_bound m den Hd) as Hr.
  set (q := m / den) in *. set (r := m mod den) in *.
  destruct (Z.ltb_spec (2 * r) den) as [H1|H1].
  - split; [nia | intros; nia].
  - destruct (Z.ltb_spec den (2 * r)) as [H2|H2].
    + split; [nia | intros; nia].
    + destruct (Z.even q) eqn:Hev.
      * split; [nia | intros; exact Hev].
      * split; [nia | intros _].
        rewrite Z.even_add, Hev. reflexivity.
Qed.
End Rounding.

Lemma is_digit_pretty_N_char (x : N) : is_digit (pretty_N_char x) = true.
Proof.
  unfold pretty_N_char. repeat case_match; reflexivity.
Qed.

Lemma pretty_N_go_digits (x : N) : forall s,
  all_digits s = true -> s <> "" ->
  all_digits (pretty_N_go x s) = true /\ pretty_N_go x s <> "".
Proof.
  induction x as [x IH] using (well_founded_induction N.lt_wf_0).
  intros s Hs Hne.
  destruct (decide (0 < x)%N) as [Hx|Hx].
  - rewrite pretty_N_go_step by assumption.
    apply IH.
    + apply N.div_lt; [assumption | reflexivity].
    + cbn. rewrite is_digit_pretty_N_char, Hs. reflexivity.
    + discriminate.
  - assert (x = 0%N) as -> by lia.
    rewrite pretty_N_go_0. auto.
Qed.

Lemma pretty_N_digits (x : N) :
  all_digits (pretty x) = true /\ pretty x <> "".
Proof.
  unfold pretty, pretty_N. case_decide as Hx.
  - split; [reflexivity | discriminate].
  - assert (Hpos : (0 < x)%N) by lia.
    rewrite pretty_N_go_step by assumption.
    apply pretty_N_go_digits.
    + cbn. rewrite is_digit_pretty_N_char. reflexivity.
    + discriminate.
Qed.

Lemma pretty_Z_digits (n : Z) :
  0 <= n -> all_digits (pretty n) = true /\ pretty n <> "".
Proof.
  destruct n as [|p|p]; intros Hn; [ | | lia].
  - split; [reflexivity | discriminate].
  - apply (pretty_N_digits (N.pos p)).
Qed.

Lemma append_cons (a : ascii) (s t : string) :
  String a s +:+ t = String a (s +:+ t).
Proof. reflexivity. Qed.

Lemma append_empty (t : string) : "" +:+ t = t.
Proof. reflexivity. Qed.

Lemma unsigned_two_places_app (p : string) (d1 d2 : ascii) :
  all_digits p = true -> p <> "" ->
  is_digit d1 = true -> is_digit d2 = true ->
  unsigned_two_places (p +:+ String "." (String d1 (String d2 ""))) = true.
Proof.
  intros Hp Hne H1 H2.
  induction p as [|a p IH]; [congruence|].
  cbn [all_digits] in Hp. apply andb_prop in Hp as [Ha Hp].
  rewrite append_cons. cbn [unsigned_two_places]. rewrite Ha. cbn [andb].
  destruct p as [|b p].
  - rewrite append_empty, H1, H2. reflexivity.
  - specialize (IH Hp ltac:(discriminate)).
    rewrite append_cons in *.
    cbn [all_digits] in Hp. apply andb_prop in Hp as [Hb Hp].
    destruct p as [|c p].
    + rewrite append_empty in *.
      destruct b as [[] [] [] [] [] [] [] []]; try exact IH; discriminate.
    + rewrite append_cons in *.
      destruct b as [[] [] [] [] [] [] [] []]; try exact IH; discriminate.
Qed.

Lemma two_places_hundredths (n : Z) :
  0 <= n -> unsigned_two_places (hundredths n) = true.
Proof.
  intros Hn. unfold hundredths, digit.
  assert (H100 : 0 <= n / 100) by (apply Z.div_pos; lia).
  destruct (pretty_Z_digits _ H100) as [Hd Hne].
  apply unsigned_two_places_app; auto using is_digit_pretty_N_char.
Qed.

Lemma hundredths_no_sign (n : Z) :
  0 <= n -> two_places (hundredths n) = unsigned_two_places (hundredths n).
Proof.
  intros Hn. unfold hundredths.
  assert (H100 : 0 <= n / 100) by (apply Z.div_pos; lia).
  destruct (pretty_Z_digits _ H100) as [Hd Hne].
  destruct (pretty (n / 100)) as [|a p]; [congruence|].
  rewrite append_cons. cbn [all_digits] in Hd.
  apply andb_prop in Hd as [Ha _].
  unfold two_places.
  destruct a as [[] [] [] [] [] [] [] []]; try reflexivity; discriminate.
Qed.

Lemma format_2f_two_places (x : float) :
  is_finite x = true -> two_places (format_2f x) = true.
Proof.
  destruct x as [[]|[]| |s m e]; try discriminate; try reflexivity.
  intros _. unfold format_2f.
  assert (Hn : 0 <= round_half_even (100 * Z.pos m) e)
    by (apply round_half_even_nonneg; lia).
  destruct s.
  - rewrite append_cons, append_empty. apply two_places_hundredths, Hn.
  - rewrite append_empty, hundredths_no_sign by exact Hn.
    apply two_places_hundredths, Hn.
Qed.

(** 0.125 is a tie and goes to the even hundredth; 2.675 lies below the
    tie as a binary64; the sign bit survives a value that rounds to zero. *)
Example format_2f_values :
  format_2f (S754_finite false 4503599627370496 (-55)) = "0.12" /\
  format_2f (S754_finite false 6023564501608038 (-51)) = "2.67" /\
  format_2f (S754_finite false 7036522574045512 (-46)) = "100.00" /\
  format_2f (S754_finite true 4611686018427388 (-62)) = "-0.00" /\
  format_2f (S754_finite false 4768371582031250 21)
    = "10000000000000000000000.00".
Proof. repeat split; vm_compute; reflexivity. Qed.

(** The non-numbers print without a point. *)
Example format_2f_non_numbers :
  format_2f (S754_infinity false) = "inf" /\
  format_2f S754_nan = "nan" /\
  two_places (format_2f (S754_infinity false)) = false.
Proof. repeat split; reflexivity. Qed.

(** [round(0.042 * 1000)] is 42, and [round(2.5)] is 2. *)
Example py_round_values :
  py_round (float_mul sample_latency (float_of_int 1000)) = Ret 42 /\
  py_round (S754_finite false 5 (-1)) = Ret 2 /\
  py_round (S754_finite true 7 (-1)) = Ret (-4).
Proof. repeat split; vm_compute; reflexivity. Qed.

(** ** The monad and its operations *)

Lemma bind_ret {A B} (m : M A) (f : A -> M B) (w w' : World) (a : A) :
  m w = (Ret a, w') -> (m ≫= f) w = f a w'.
Proof. intros H. unfold mbind, M_bind. rewrite H. reflexivity. Qed.

(** A bare [except: pass] around a body swallows whatever it raises and
    keeps the world the body left. *)
Lemma try_bare_pass (body : M unit) (w : World) :
  try_except body [(bare, pass)] w = (Ret tt, snd (body w)).
Proof.
  unfold try_except. destruct (body w) as [[[]|e] w']; reflexivity.
Qed.

Lemma call_run (plat : Platform) (c : Call) (w : World) :
  call plat c w =
  (match outcome plat (w_calls w) c with
   | None => Ret tt
   | Some e => Raise e
   end, record_call c w).
Proof. unfold call. destruct (outcome plat (w_calls w) c); reflexivity. Qed.

Lemma log_line_run (name : string) (lvl : Level) (msg : string) (w : World) :
  log_line name lvl msg w =
  (Ret tt, add_log {| log_name := name; log_level := lvl;
                      log_message := msg |} w).
Proof. reflexivity. Qed.

(** ** The class hierarchy *)

(** Eight steps reach the root from every class, so [mro] is the whole
    chain of bases and [issubclass] misses none. *)
Lemma mro_reaches_root (c : PyClass) :
  last (mro c) = Some BaseException /\ mro_upto 9 c = mro c.
Proof. destruct c; split; reflexivity. Qed.

(** The six classes the legacy handler tests are pairwise unrelated: an
    exception is an instance of at most one of them, so the order of the
    tests does not matter. *)
Lemma legacy_classes_exclusive (c : PyClass) :
  (length (filter (fun d => issubclass c d = true)
     [commands_CommandNotFound; commands_MissingPermissions;
      commands_BotMissingPermissions; commands_CommandOnCooldown;
      commands_MissingRequiredArgument; commands_BadArgument]) <= 1)%nat.
Proof. destruct c; vm_compute; lia. Qed.

Lemma legacy_kind_NotFound (error : PyExc) :
  legacy_kind error = NotFound <->
  isinstance error commands_CommandNotFound = true.
Proof.
  unfold legacy_kind.
  destruct (isinstance error commands_CommandNotFound); [tauto|].
  split; [|discriminate]. repeat case_match; discriminate.
Qed.

(** The kind, read off the class alone: whichever of the six classes the
    error is an instance of gives its tag. *)
Lemma legacy_kind_by_class (error : PyExc) :
  (isinstance error commands_CommandNotFound = true ->
   legacy_kind error = NotFound) /\
  (isinstance error commands_MissingPermissions = true ->
   legacy_kind error = MissingUserPermission) /\
  (isinstance error commands_BotMissingPermissions = true ->
   legacy_kind error = MissingAgentPermission) /\
  (isinstance error commands_CommandOnCooldown = true ->
   legacy_kind error = OnCooldown (retry_after error)) /\
  (isinstance error commands_MissingRequiredArgument = true ->
   legacy_kind error = MissingArgument (param_name error)) /\
  (isinstance error commands_BadArgument = true ->
   legacy_kind error = BadArgument).
Proof.
  destruct error as [c s r p]. unfold legacy_kind, isinstance. cbn.
  destruct c; vm_compute; repeat split; intros; (discriminate || reflexivity).
Qed.

(** A subclass is taken by its base's branch, a class outside the six by
    the last one. *)
Example legacy_kind_of_subclasses :
  legacy_kind (sample_error commands_MemberNotFound) = BadArgument /\
  legacy_kind (sample_error commands_CommandInvokeError) = Unexpected "boom" /\
  legacy_kind (sample_error app_commands_MissingPermissions)
    = Unexpected "boom".
Proof. repeat split; reflexivity. Qed.

(** ** The legacy error classifier *)

(** What [command_error_embed] builds, by the kind of the error, and the
    lines it logs. *)
Lemma command_error_embed_run (ctx : Context) (error : PyExc) (w : World) :
  legacy_kind error <> NotFound ->
  exists embed w1,
    command_error_embed ctx error w = (Ret embed, w1) /\
    embed = set_description (default "" (legacy_template (legacy_kind error)))
              (Embed_new (Some "❌ Command Error") None 0xff0000
                 (Some (w_now w))) /\
    is_Some (legacy_template (legacy_kind error)) /\
    w_calls w1 = w_calls w /\ w_stdout w1 = w_stdout w /\
    w_responded w1 = w_responded w /\
    w_log w1 =
      (w_log w ++
       match legacy_kind error with
       | Unexpected detail =>
           [error_line ("Unexpected error in command "
                        +:+ str_opt (ctx_command ctx) +:+ ": " +:+ detail);
            error_line (w_traceback w)]
       | _ => []
       end)%list.
Proof.
  intros Hk. unfold legacy_kind in *. unfold command_error_embed.
  destruct (isinstance error commands_CommandNotFound); [congruence|].
  repeat case_match;
    (eexists; eexists; split; [reflexivity|]);
    repeat split; eauto; cbn; rewrite <- ?app_assoc, ?app_nil_r; reflexivity.
Qed.

Lemma command_error_embed_total (ctx : Context) (error : PyExc) (w : World) :
  exists embed w1,
    command_error_embed ctx error w = (Ret embed, w1) /\
    has_error_header (w_now w) embed /\
    w_calls w1 = w_calls w /\ w_stdout w1 = w_stdout w /\
    w_responded w1 = w_responded w.
Proof.
  unfold command_error_embed.
  repeat case_match;
    (eexists; eexists; split; [reflexivity|]);
    repeat split; reflexivity.
Qed.

(** ** The interaction error classifier *)

Lemma app_command_error_embed_total (error : PyExc) (w : World) :
  exists embed w1,
    app_command_error_embed error w = (Ret embed, w1) /\
    has_error_header (w_now w) embed /\
    w_calls w1 = w_calls w /\ w_stdout w1 = w_stdout w /\
    w_responded w1 = w_responded w.
Proof.
  unfold app_command_error_embed.
  repeat case_match;
    (eexists; eexists; split; [reflexivity|]);
    repeat split; reflexivity.
Qed.

Lemma deliver_run (plat : Platform) (interaction : nat) (embed : Embed)
    (w : World) :
  exists w',
    deliver plat interaction embed w = (Ret tt, w') /\
    w_calls w' = (w_calls w ++ [delivery interaction embed w])%list /\
    w_log w' = w_log w /\ w_stdout w' = w_stdout w.
Proof.
  unfold deliver. rewrite try_bare_pass. eexists. split; [reflexivity|].
  unfold delivery, is_done, send_message, call, mark_responded, mbind, M_bind.
  cbn.
  destruct (bool_decide (interaction ∈ w_responded w)); cbn;
    match goal with
    | |- context [outcome ?p ?h ?c] => destruct (outcome p h c)
    end; cbn; repeat split; reflexivity.
Qed.

Lemma sent_between_app (w w' : World) (cs : list Call) :
  w_calls w' = (w_calls w ++ cs)%list ->
  sent_between w w' = omap call_embed cs.
Proof.
  intros H. unfold sent_between. rewrite H, drop_app_length. reflexivity.
Qed.

Lemma sent_between_same (w w' : World) :
  w_calls w' = w_calls w -> sent_between w w' = [].
Proof.
  intros H. rewrite (sent_between_app w w' []); [reflexivity|].
  rewrite H, app_nil_r. reflexivity.
Qed.

Lemma on_command_error_run (plat : Platform) (self : Bot) (ctx : Context)
    (error : PyExc) (w : World) :
  isinstance error commands_CommandNotFound = false ->
  exists embed w1 w2,
    command_error_embed ctx error w = (Ret embed, w1) /\
    on_command_error plat self ctx error w = (Ret tt, w2) /\
    w_calls w2 = (w_calls w ++ [ctx_send (ctx_channel ctx) embed true])%list /\
    w_log w2 = w_log w1 /\ w_stdout w2 = w_stdout w.
Proof.
  intros Hnf. unfold on_command_error. rewrite Hnf.
  destruct (command_error_embed_total ctx error w)
    as (embed & w1 & Hrun & _ & Hcalls & Hout & _).
  exists embed, w1. eexists. split; [exact Hrun|].
  rewrite (bind_ret _ _ _ _ _ Hrun), try_bare_pass.
  split; [reflexivity|]. rewrite call_run. cbn.
  rewrite Hcalls, Hout. repeat split; reflexivity.
Qed.

Lemma on_app_command_error_run (plat : Platform) (self : Bot)
    (interaction : nat) (error : PyExc) (w : World) :
  exists embed w1 w2,
    app_command_error_embed error w = (Ret embed, w1) /\
    on_app_command_error plat self interaction error w = (Ret tt, w2) /\
    w_calls w2 = (w_calls w1 ++ [delivery interaction embed w1])%list /\
    w_log w2 = w_log w1 /\ w_stdout w2 = w_stdout w.
Proof.
  unfold on_app_command_error.
  destruct (app_command_error_embed_total error w)
    as (embed & w1 & Hrun & _ & Hcalls & Hout & _).
  destruct (deliver_run plat interaction embed w1)
    as (w2 & Hdel & Hc2 & Hl2 & Ho2).
  exists embed, w1, w2. split; [exact Hrun|].
  rewrite (bind_ret _ _ _ _ _ Hrun).
  repeat split; try assumption. congruence.
Qed.

(** C4. On the legacy path an error of kind [NotFound] makes the handler
    return at once: the world it leaves is the world it found, so no
    notification has been sent and no line logged. *)
Theorem C4_not_found_is_ignored (plat : Platform) (self : Bot) (ctx : Context)
    (error : PyExc) (w : World) :
  legacy_kind error = NotFound ->
  on_command_error plat self ctx error w = (Ret tt, w).
Proof.
  intros Hk. apply legacy_kind_NotFound in Hk.
  unfold on_command_error. rewrite Hk. reflexivity.
Qed.

(** The theorem at a [CommandNotFound] raised for a mistyped command. *)
Lemma C4_not_found_witness :
  legacy_kind (sample_error commands_CommandNotFound) = NotFound /\
  on_command_error reliable sample_bot sample_ctx
    (sample_error commands_CommandNotFound) sample_world
  = (Ret tt, sample_world).
Proof.
  split; [reflexivity|].
  apply (C4_not_found_is_ignored reliable sample_bot sample_ctx
           (sample_error commands_CommandNotFound) sample_world).
  reflexivity.
Defined.

(** C1, as the specification's table has it, fails on the
    [MissingArgument] row: the handler's text stops at the closing
    backquote, the table adds a full stop. *)
Lemma C1_missing_argument_has_no_full_stop :
  let error := sample_error commands_MissingRequiredArgument in
  legacy_kind error = MissingArgument "member" /\
  spec_template (legacy_kind error)
    = Some "Missing required argument: `member`." /\
  exists embed w1,
    command_error_embed sample_ctx error sample_world = (Ret embed, w1) /\
    emb_description embed = Some "Missing required argument: `member`" /\
    emb_description embed <> spec_template (legacy_kind error).
Proof.
  split; [reflexivity|]. split; [reflexivity|].
  eexists. eexists. split; [reflexivity|].
  split; [reflexivity|]. discriminate.
Qed.

(** C1 (amended). For every legacy-path error whose kind is not
    [NotFound], the handler sends one notification whose description is,
    byte for byte, the template of the kind, where the [MissingArgument]
    template ends at the closing backquote. The cooldown value is printed
    by ['.2f'], which for every finite value is a numeral with exactly two
    places after the point. *)
Theorem C1_legacy_description_is_template (plat : Platform) (self : Bot)
    (ctx : Context) (error : PyExc) (w : World) :
  legacy_kind error <> NotFound ->
  exists embed w1 w2,
    command_error_embed ctx error w = (Ret embed, w1) /\
    on_command_error plat self ctx error w = (Ret tt, w2) /\
    w_calls w2 = (w_calls w ++ [ctx_send (ctx_channel ctx) embed true])%list /\
    is_Some (emb_description embed) /\
    emb_description embed = legacy_template (legacy_kind error) /\
    (forall r, legacy_kind error = OnCooldown r -> is_finite r = true ->
               two_places (format_2f r) = true).
Proof.
  intros Hk.
  assert (Hnf : isinstance error commands_CommandNotFound = false).
  { destruct (isinstance error commands_CommandNotFound) eqn:E; [|reflexivity].
    apply legacy_kind_NotFound in E. contradiction. }
  destruct (on_command_error_run plat self ctx error w Hnf)
    as (embed & w1 & w2 & Hrun & Hh & Hcalls & _).
  destruct (command_error_embed_run ctx error w Hk)
    as (embed' & w1' & Hrun' & Hemb & [d Hd] & _).
  rewrite Hrun in Hrun'. injection Hrun' as <- <-.
  exists embed, w1, w2. repeat split; try assumption.
  - subst embed. cbn. eauto.
  - subst embed. rewrite Hd. reflexivity.
  - intros r _. apply format_2f_two_places.
Qed.

(** The theorem at a cooldown error with 2.675 seconds left. *)
Lemma C1_legacy_description_witness :
  let error := sample_error commands_CommandOnCooldown in
  legacy_kind error <> NotFound /\
  exists embed w1 w2,
    command_error_embed sample_ctx error sample_world = (Ret embed, w1) /\
    on_command_error reliable sample_bot sample_ctx error sample_world
      = (Ret tt, w2) /\
    w_calls w2 = (w_calls sample_world
                  ++ [ctx_send (ctx_channel sample_ctx) embed true])%list /\
    is_Some (emb_description embed) /\
    emb_description embed = legacy_template (legacy_kind error) /\
    (forall r, legacy_kind error = OnCooldown r -> is_finite r = true ->
               two_places (format_2f r) = true).
Proof.
  split; [discriminate|].
  apply (C1_legacy_description_is_template reliable sample_bot sample_ctx
           (sample_error commands_CommandOnCooldown) sample_world).
  discriminate.
Defined.

(** C3. On the interaction path the notification goes out as the primary
    response when the interaction has no response yet and as a follow-up
    when it has one; the response state consulted is that of the world in
    which the delivery starts, after the classification. *)
Theorem C3_delivery_follows_response_state (plat : Platform) (self : Bot)
    (interaction : nat) (error : PyExc) (w : World) :
  exists embed w1 w2,
    app_command_error_embed error w = (Ret embed, w1) /\
    on_app_command_error plat self interaction error w = (Ret tt, w2) /\
    w_calls w2 =
      (w_calls w1 ++
       [if bool_decide (interaction ∈ w_responded w1)
        then followup_send interaction embed true
        else response_send_message interaction embed true])%list /\
    (forall e w', exists w'',
       deliver plat interaction e w' = (Ret tt, w'') /\
       w_calls w'' =
         (w_calls w' ++
          [if bool_decide (interaction ∈ w_responded w')
           then followup_send interaction e true
           else response_send_message interaction e true])%list).
Proof.
  destruct (on_app_command_error_run plat self interaction error w)
    as (embed & w1 & w2 & Hrun & Hh & Hcalls & _).
  exists embed, w1, w2. repeat split; try assumption.
  intros e w'.
  destruct (deliver_run plat interaction e w') as (w'' & Hd & Hc & _).
  exists w''. split; assumption.
Qed.

(** C8. Neither classifier lets an exception out: whatever the platform
    does with the send, both handlers return normally, and a failed send
    leaves the log and the standard output exactly as a successful one
    does. *)
Theorem C8_classifiers_never_raise (plat : Platform) (self : Bot)
    (ctx : Context) (interaction : nat) (error : PyExc) (w : World) :
  fst (on_command_error plat self ctx error w) = Ret tt /\
  fst (on_app_command_error plat self interaction error w) = Ret tt /\
  w_log (snd (on_command_error plat self ctx error w))
    = w_log (snd (on_command_error reliable self ctx error w)) /\
  w_stdout (snd (on_command_error plat self ctx error w)) = w_stdout w /\
  w_log (snd (on_app_command_error plat self interaction error w))
    = w_log (snd (on_app_command_error reliable self interaction error w)) /\
  w_stdout (snd (on_app_command_error plat self interaction error w))
    = w_stdout w.
Proof.
  assert (Hleg : forall p,
    fst (on_command_error p self ctx error w) = Ret tt /\
    w_stdout (snd (on_command_error p self ctx error w)) = w_stdout w /\
    w_log (snd (on_command_error p self ctx error w))
      = w_log (snd (command_error_embed ctx error w)) \/
    isinstance error commands_CommandNotFound = true).
  { intros p.
    destruct (isinstance error commands_CommandNotFound) eqn:E; [right; reflexivity|].
    left. destruct (on_command_error_run p self ctx error w E)
      as (embed & w1 & w2 & Hrun & Hh & _ & Hlog & Hout).
    rewrite Hh, Hrun. cbn. auto. }
  assert (Happ : forall p,
    fst (on_app_command_error p self interaction error w) = Ret tt /\
    w_stdout (snd (on_app_command_error p self interaction error w)) = w_stdout w /\
    w_log (snd (on_app_command_error p self interaction error w))
      = w_log (snd (app_command_error_embed error w))).
  { intros p.
    destruct (on_app_command_error_run p self interaction error w)
      as (embed & w1 & w2 & Hrun & Hh & _ & Hlog & Hout).
    rewrite Hh, Hrun. cbn. auto. }
  destruct (Happ plat) as (A1 & A2 & A3), (Happ reliable) as (_ & _ & A3').
  destruct (Hleg plat) as [(L1 & L2 & L3)|E].
  - destruct (Hleg reliable) as [(_ & _ & L3')|E'].
    + repeat split; congruence.
    + unfold on_command_error in *. rewrite E' in *. repeat split; congruence.
  - unfold on_command_error. rewrite E. cbn. repeat split; congruence.
Qed.

(** C10. Every notification either classifier hands to the platform has
    the title "❌ Command Error", the color 0xff0000 and, as timestamp, the
    clock's reading when the handler built it; the kind of the error
    decides only whether one is sent (none for a legacy [NotFound]), its
    description and the logging. *)
Theorem C10_error_notifications_share_header (plat : Platform) (self : Bot)
    (ctx : Context) (interaction : nat) (error : PyExc) (w : World) :
  (exists embed,
     has_error_header (w_now w) embed /\
     sent_between w (snd (on_command_error plat self ctx error w))
       = if isinstance error commands_CommandNotFound then [] else [embed]) /\
  (exists embed,
     has_error_header (w_now w) embed /\
     sent_between w (snd (on_app_command_error plat self interaction error w))
       = [embed]).
Proof.
  split.
  - destruct (command_error_embed_total ctx error w)
      as (embed & w1 & Hrun & Hhead & _).
    exists embed. split; [exact Hhead|].
    destruct (isinstance error commands_CommandNotFound) eqn:E.
    + unfold on_command_error. rewrite E. cbn.
      apply sent_between_same. reflexivity.
    + destruct (on_command_error_run plat self ctx error w E)
        as (embed' & w1' & w2 & Hrun' & Hh & Hcalls & _).
      rewrite Hrun in Hrun'. injection Hrun' as <- <-.
      rewrite Hh. cbn. rewrite (sent_between_app _ _ _ Hcalls). reflexivity.
  - destruct (app_command_error_embed_total error w)
      as (embed & w1 & Hrun & Hhead & Hc1 & _).
    destruct (on_app_command_error_run plat self interaction error w)
      as (embed' & w1' & w2 & Hrun' & Hh & Hcalls & _).
    rewrite Hrun in Hrun'. injection Hrun' as <- <-.
    exists embed. split; [exact Hhead|].
    rewrite Hh. cbn. rewrite Hc1 in Hcalls.
    rewrite (sent_between_app _ _ _ Hcalls).
    unfold delivery. destruct (bool_decide _); reflexivity.
Qed.

(** ** The extension loader *)

Lemma load_module_run (plat : Platform) (module : string) (w : World) :
  failures_are_exceptions plat (load_extension module) ->
  load_module plat module w =
  (Ret tt,
   add_log (load_line module (outcome plat (w_calls w) (load_extension module)))
     (record_call (load_extension module) w)).
Proof.
  intros Hexc. unfold load_module, try_except, call, mbind, M_bind.
  destruct (outcome plat (w_calls w) (load_extension module)) as [e|] eqn:Ho.
  - cbn. rewrite (Hexc _ _ Ho). reflexivity.
  - reflexivity.
Qed.

(** The loop never stops early: it returns, having tried every module
    once, in order, and written one line for each. *)
Lemma load_each_run (plat : Platform) (ms : list string) : forall w : World,
  (forall module, failures_are_exceptions plat (load_extension module)) ->
  exists w',
    load_each plat ms w = (Ret tt, w') /\
    w_calls w' = (w_calls w ++ map load_extension ms)%list /\
    w_log w' = (w_log w ++ load_report plat (w_calls w) ms)%list /\
    w_stdout w' = w_stdout w /\ w_now w' = w_now w.
Proof.
  induction ms as [|module rest IH]; intros w Hexc.
  - exists w. cbn. rewrite !app_nil_r. auto.
  - cbn [load_each].
    rewrite (bind_ret _ _ _ _ _ (load_module_run plat module w (Hexc module))).
    destruct (IH (add_log (load_line module
                             (outcome plat (w_calls w) (load_extension module)))
                    (record_call (load_extension module) w)) Hexc)
      as (w' & Hrun & Hcalls & Hlog & Hout & Hnow).
    exists w'. split; [exact Hrun|].
    cbn in Hcalls, Hlog, Hout, Hnow.
    rewrite Hcalls, Hlog, Hout, Hnow. cbn.
    rewrite <- !app_assoc. auto.
Qed.

Lemma load_report_length (plat : Platform) (ms : list string) :
  forall before, length (load_report plat before ms) = length ms.
Proof.
  induction ms as [|module rest IH]; intros before; cbn; [|rewrite IH];
    reflexivity.
Qed.

(** The [i]-th line is the one owed to the [i]-th module. *)
Lemma load_report_lookup (plat : Platform) (ms : list string) :
  forall before (i : nat) module,
    ms !! i = Some module ->
    load_report plat before ms !! i =
    Some (load_line module
            (outcome plat (before ++ map load_extension (take i ms))%list
               (load_extension module))).
Proof.
  induction ms as [|m rest IH]; intros before i module Hi; [discriminate|].
  destruct i as [|i]; cbn in *.
  - injection Hi as ->. rewrite app_nil_r. reflexivity.
  - rewrite (IH _ _ _ Hi), <- app_assoc. reflexivity.
Qed.

(** C5, as stated, fails for a load failure that is not an [Exception]:
    the loop's clause is [except Exception], so a cancellation raised while
    the second module loads leaves the loader; that module gets no log
    line and the four after it are never tried. *)
Lemma C5_cancelled_load_leaves_the_loader :
  let plat := failing (is_load_of "cogs.utility") cancelled in
  isinstance cancelled Exception = false /\
  exists w',
    load_extensions plat sample_world = (Raise cancelled, w') /\
    w_calls w' = [load_extension "cogs.moderation";
                  load_extension "cogs.utility"] /\
    w_log w' = [info_line "Loaded cogs.moderation"].
Proof.
  cbv zeta. split; [reflexivity|].
  eexists. split; [reflexivity|]. split; reflexivity.
Qed.

(** C5 (amended). As long as loading fails with [Exception]s only, for
    every ordered list of module identifiers the loader tries each module
    exactly once, in order: a module whose loading fails is logged by name
    with the error's text, and the modules after it are still tried; the
    log gains exactly one line per module, the [i]-th line being that of
    the [i]-th module. *)
Theorem C5_loader_isolates_failures (plat : Platform) (ms : list string)
    (w : World) :
  (forall module, failures_are_exceptions plat (load_extension module)) ->
  exists w',
    load_each plat ms w = (Ret tt, w') /\
    w_calls w' = (w_calls w ++ map load_extension ms)%list /\
    w_log w' = (w_log w ++ load_report plat (w_calls w) ms)%list /\
    length (load_report plat (w_calls w) ms) = length ms /\
    (forall (i : nat) module,
       ms !! i = Some module ->
       load_report plat (w_calls w) ms !! i =
       Some (load_line module
               (outcome plat
                  (w_calls w ++ map load_extension (take i ms))%list
                  (load_extension module)))).
Proof.
  intros Hexc.
  destruct (load_each_run plat ms w Hexc) as (w' & Hrun & Hcalls & Hlog & _).
  exists w'. repeat split; try assumption.
  - apply load_report_length.
  - intros i module. apply load_report_lookup.
Qed.

Lemma failing_raises_exceptions (fails : Call -> bool) (e : PyExc) (c : Call) :
  isinstance e Exception = true ->
  failures_are_exceptions (failing fails e) c.
Proof.
  intros He before e'. cbn. destruct (fails c); [|discriminate].
  intros [= <-]. exact He.
Qed.

(** The theorem at the fixed module list, the second module failing. *)
Lemma C5_loader_witness :
  let plat := failing (is_load_of "cogs.utility") utility_failed in
  (forall module, failures_are_exceptions plat (load_extension module)) /\
  exists w',
    load_each plat modules sample_world = (Ret tt, w') /\
    w_calls w' = (w_calls sample_world ++ map load_extension modules)%list /\
    w_log w' =
      (w_log sample_world
       ++ load_report plat (w_calls sample_world) modules)%list /\
    length (load_report plat (w_calls sample_world) modules)
      = length modules /\
    (forall (i : nat) module,
       modules !! i = Some module ->
       load_report plat (w_calls sample_world) modules !! i =
       Some (load_line module
               (outcome plat
                  (w_calls sample_world
                   ++ map load_extension (take i modules))%list
                  (load_extension module)))).
Proof.
  split.
  - intros module. apply failing_raises_exceptions. reflexivity.
  - apply (C5_loader_isolates_failures
             (failing (is_load_of "cogs.utility") utility_failed)
             modules sample_world).
    intros module. apply failing_raises_exceptions. reflexivity.
Defined.

(** The fixed list with the second module failing: the third to
    sixth are loaded all the same. *)
Example load_extensions_second_fails :
  w_log (snd (load_extensions
                (failing (is_load_of "cogs.utility") utility_failed)
                sample_world))
  = [info_line "Loaded cogs.moderation";
     error_line
       "Failed to load cogs.utility: Extension 'cogs.utility' raised an error: ImportError: no module named 'yt_dlp'";
     info_line "Loaded cogs.fun"; info_line "Loaded cogs.music";
     info_line "Loaded cogs.economy"; info_line "Loaded cogs.admin"].
Proof. reflexivity. Qed.

(** ** Startup *)

Lemma setup_hook_sync_fails (plat : Platform) (self : Bot) (w : World)
    (e : PyExc) :
  (forall module, failures_are_exceptions plat (load_extension module)) ->
  outcome plat (w_calls w ++ map load_extension modules)%list tree_sync
    = Some e ->
  isinstance e Exception = true ->
  exists w1,
    setup_hook plat self w = (Ret tt, w1) /\
    w_now w1 = w_now w /\
    w_log w1 =
      (w_log w ++ [info_line "Starting bot setup..."]
       ++ load_report plat (w_calls w) modules
       ++ [error_line ("Failed to sync commands: " +:+ exc_str e);
           info_line "Bot setup completed!"])%list.
Proof.
  intros Hexc Hsync He.
  unfold setup_hook, load_extensions.
  set (w0 := add_log (info_line "Starting bot setup...") w).
  destruct (load_each_run plat modules w0 Hexc)
    as (w' & Hrun & Hcalls & Hlog & _ & Hnow).
  rewrite (bind_ret _ _ w w0 tt) by reflexivity.
  rewrite (bind_ret _ _ _ _ _ Hrun).
  assert (Hs : outcome plat (w_calls w') tree_sync = Some e)
    by (rewrite Hcalls; exact Hsync).
  eexists. split.
  - unfold try_except, sync, mbind, M_bind. rewrite Hs. cbn. rewrite He.
    reflexivity.
  - cbn. rewrite Hnow, Hlog. cbn. rewrite <- !app_assoc. auto.
Qed.

Lemma on_ready_embed_run (self : Bot) (w : World) (ms : Z) :
  py_round (float_mul (latency self) (float_of_int 1000)) = Ret ms ->
  exists embed,
    on_ready_embed self w = (Ret embed, w) /\
    emb_fields embed = status_fields self ms /\
    emb_timestamp embed = Some (w_now w) /\
    emb_color embed = 0x00ff00.
Proof.
  intros Hms. unfold on_ready_embed, utcnow, lift, mbind, M_bind.
  rewrite Hms. eexists. split; [reflexivity|]. repeat split; reflexivity.
Qed.

Lemma on_ready_run (plat : Platform) (self : Bot) (w : World) (ms : Z) :
  py_round (float_mul (latency self) (float_of_int 1000)) = Ret ms ->
  exists r w',
    on_ready plat self w = (r, w') /\
    w_log w' =
      (w_log w
       ++ [info_line ("Bot is ready! Logged in as " +:+ user_name self)])%list /\
    w_calls w' =
      (w_calls w
       ++ [change_presence "watching"
             (pretty (length (guilds self)) +:+ " servers")])%list.
Proof.
  intros Hms.
  destruct (on_ready_embed_run self w ms Hms) as (embed & Hrun & _).
  unfold on_ready. rewrite (bind_ret _ _ _ _ _ Hrun).
  unfold logger_info, mbind, M_bind. rewrite log_line_run, call_run.
  eexists. eexists. split; [reflexivity|]. split; reflexivity.
Qed.

(** C7, as stated, fails on its last word: the status embed is built and
    dropped, and the log gets the line naming the agent only. On the run
    below [tree.sync] raises; two bots of one name and different status
    (3 guilds, 7 users, 42 ms against none, none, 0 ms) write the very
    same ten lines. *)
Lemma C7_status_notification_is_not_logged :
  let plat := failing is_sync sync_failed in
  (emb_fields <$> returned (on_ready_embed sample_bot sample_world))
    = Some (status_fields sample_bot 42) /\
  (emb_fields <$> returned (on_ready_embed idle_bot sample_world))
    = Some (status_fields idle_bot 0) /\
  status_fields sample_bot 42 <> status_fields idle_bot 0 /\
  w_log (snd (startup plat sample_bot sample_world))
    = [info_line "Starting bot setup...";
       info_line "Loaded cogs.moderation"; info_line "Loaded cogs.utility";
       info_line "Loaded cogs.fun"; info_line "Loaded cogs.music";
       info_line "Loaded cogs.economy"; info_line "Loaded cogs.admin";
       error_line
         "Failed to sync commands: 503 Service Unavailable (error code: 0)";
       info_line "Bot setup completed!";
       info_line "Bot is ready! Logged in as Aequitas"] /\
  w_log (snd (startup plat idle_bot sample_world))
    = w_log (snd (startup plat sample_bot sample_world)).
Proof.
  cbv zeta. split; [vm_compute; reflexivity|].
  split; [vm_compute; reflexivity|].
  split; [discriminate|].
  split; vm_compute; reflexivity.
Qed.

(** C7 (amended). When [tree.sync] raises, the error is logged and
    [setup_hook] returns normally, so startup goes on to [on_ready]; there,
    if [round(self.latency * 1000)] yields an integer, the status embed
    (guild count, user count, latency in milliseconds) is built, and the
    line that is logged is the readiness line naming the agent. *)
Theorem C7_failed_sync_still_reaches_ready (plat : Platform) (self : Bot)
    (w : World) (e : PyExc) (ms : Z) :
  (forall module, failures_are_exceptions plat (load_extension module)) ->
  outcome plat (w_calls w ++ map load_extension modules)%list tree_sync
    = Some e ->
  isinstance e Exception = true ->
  py_round (float_mul (latency self) (float_of_int 1000)) = Ret ms ->
  exists w1 embed r w2,
    setup_hook plat self w = (Ret tt, w1) /\
    w_log w1 =
      (w_log w ++ [info_line "Starting bot setup..."]
       ++ load_report plat (w_calls w) modules
       ++ [error_line ("Failed to sync commands: " +:+ exc_str e);
           info_line "Bot setup completed!"])%list /\
    on_ready_embed self w1 = (Ret embed, w1) /\
    emb_fields embed = status_fields self ms /\
    startup plat self w = (r, w2) /\
    w_log w2 =
      (w_log w1
       ++ [info_line ("Bot is ready! Logged in as " +:+ user_name self)])%list.
Proof.
  intros Hexc Hsync He Hms.
  destruct (setup_hook_sync_fails plat self w e Hexc Hsync He)
    as (w1 & Hsetup & _ & Hlog1).
  destruct (on_ready_embed_run self w1 ms Hms) as (embed & Hemb & Hfields & _).
  destruct (on_ready_run plat self w1 ms Hms) as (r & w2 & Hready & Hlog2 & _).
  exists w1, embed, r, w2. repeat split; try assumption.
  unfold startup. rewrite (bind_ret _ _ _ _ _ Hsetup). exact Hready.
Qed.

(** The theorem at the sample bot, on a platform whose sync fails. *)
Lemma C7_failed_sync_witness :
  let plat := failing is_sync sync_failed in
  (forall module, failures_are_exceptions plat (load_extension module)) /\
  outcome plat (w_calls sample_world ++ map load_extension modules)%list
    tree_sync = Some sync_failed /\
  isinstance sync_failed Exception = true /\
  py_round (float_mul (latency sample_bot) (float_of_int 1000)) = Ret 42 /\
  exists w1 embed r w2,
    setup_hook plat sample_bot sample_world = (Ret tt, w1) /\
    w_log w1 =
      (w_log sample_world ++ [info_line "Starting bot setup..."]
       ++ load_report plat (w_calls sample_world) modules
       ++ [error_line ("Failed to sync commands: " +:+ exc_str sync_failed);
           info_line "Bot setup completed!"])%list /\
    on_ready_embed sample_bot w1 = (Ret embed, w1) /\
    emb_fields embed = status_fields sample_bot 42 /\
    startup plat sample_bot sample_world = (r, w2) /\
    w_log w2 =
      (w_log w1
       ++ [info_line ("Bot is ready! Logged in as "
                      +:+ user_name sample_bot)])%list.
Proof.
  assert (H1 : forall module,
    failures_are_exceptions (failing is_sync sync_failed)
      (load_extension module))
    by (intros module; apply failing_raises_exceptions; reflexivity).
  assert (H4 : py_round (float_mul (latency sample_bot) (float_of_int 1000))
               = Ret 42) by (vm_compute; reflexivity).
  cbv zeta. split; [exact H1|]. split; [reflexivity|].
  split; [reflexivity|]. split; [exact H4|].
  exact (C7_failed_sync_still_reaches_ready (failing is_sync sync_failed)
           sample_bot sample_world sync_failed 42 H1 eq_refl eq_refl H4).
Defined.

(** The non-numbers make [on_ready] raise before anything is logged: the
    latency of a connection whose heartbeat has not been acknowledged yet
    is infinite. *)
Example on_ready_infinite_latency :
  let self := {| user_name := "Aequitas"; user_avatar := None; guilds := [];
                 users := []; latency := S754_infinity false |} in
  exists e, on_ready reliable self sample_world = (Raise e, sample_world) /\
            exc_class e = OverflowError.
Proof. eexists. split; reflexivity. Qed.

(** ** The guild-join notifier *)

Lemma find_channel_first (me : Z) (chs : list TextChannel) :
  first_sendable me chs (find_channel me chs).
Proof.
  induction chs as [|ch rest IH]; cbn [find_channel].
  - constructor.
  - fold (can_send me ch). destruct (can_send me ch) eqn:Hch.
    + exists [], rest. repeat split; [constructor | exact Hch].
    + destruct (find_channel me rest) as [found|]; cbn in *.
      * destruct IH as (pre & post & -> & Hpre & Hfound).
        exists (ch :: pre), post. repeat split; [|exact Hfound].
        constructor; assumption.
      * constructor; assumption.
Qed.

Lemma guild_join_embed_run (guild : Guild) (w : World) :
  exists embed, guild_join_embed guild w = (Ret embed, w) /\
                emb_timestamp embed = Some (w_now w).
Proof. eexists. split; reflexivity. Qed.

(** C6, as stated, fails for a delivery failure that is not [Forbidden]:
    with channels [no; yes; yes] the second is selected, the send raises an
    [HTTPException], the exception leaves the handler, and the join line is
    never logged. *)
Lemma C6_other_delivery_failure_escapes :
  let plat := failing is_channel_send send_failed in
  (channel_id <$> find_channel (guild_me sample_join) (text_channels sample_join))
    = Some 2 /\
  isinstance send_failed Forbidden = false /\
  exists w',
    on_guild_join plat sample_bot sample_join sample_world
      = (Raise send_failed, w') /\
    length (w_calls w') = 1%nat /\
    w_log w' = [].
Proof.
  cbv zeta. split; [reflexivity|]. split; [reflexivity|].
  eexists. split; [reflexivity|]. split; reflexivity.
Qed.

(** C6 (amended). On a guild join the notifier selects the first text
    channel, in platform order, on which the agent may send; with no such
    channel it sends nothing and raises nothing; a [Forbidden] raised by the
    send is caught and dropped; and whenever the send is skipped, succeeds
    or is forbidden, the join is logged by name and id. Any other exception
    of the send leaves the handler before the log line. *)
Theorem C6_guild_join_notifier (plat : Platform) (self : Bot) (guild : Guild)
    (w : World) :
  let chosen := find_channel (guild_me guild) (text_channels guild) in
  let joined :=
    info_line ("Joined guild: " +:+ guild_name guild +:+ " (ID: "
               +:+ pretty (guild_id guild) +:+ ")") in
  first_sendable (guild_me guild) (text_channels guild) chosen /\
  exists embed,
    guild_join_embed guild w = (Ret embed, w) /\
    match chosen with
    | None => on_guild_join plat self guild w = (Ret tt, add_log joined w)
    | Some channel =>
        let c := channel_send (channel_id channel) embed in
        on_guild_join plat self guild w =
        match outcome plat (w_calls w) c with
        | None => (Ret tt, add_log joined (record_call c w))
        | Some e =>
            if isinstance e Forbidden
            then (Ret tt, add_log joined (record_call c w))
            else (Raise e, record_call c w)
        end
    end.
Proof.
  cbv zeta. split; [apply find_channel_first|].
  destruct (guild_join_embed_run guild w) as (embed & Hemb & _).
  exists embed. split; [exact Hemb|].
  unfold on_guild_join. rewrite (bind_ret _ _ _ _ _ Hemb).
  destruct (find_channel (guild_me guild) (text_channels guild)) as [channel|].
  - unfold try_except, mbind, M_bind. rewrite call_run.
    destruct (outcome plat (w_calls w) (channel_send (channel_id channel) embed))
      as [e|]; [|reflexivity].
    cbn. destruct (isinstance e Forbidden); reflexivity.
  - reflexivity.
Qed.

(** The runs of the specification's two examples: [no; yes; yes] selects
    the second channel; with a forbidden send the join is logged all the
    same. *)
Example on_guild_join_forbidden :
  let plat := failing is_channel_send send_forbidden in
  exists w',
    on_guild_join plat sample_bot sample_join sample_world = (Ret tt, w') /\
    w_log w' = [info_line "Joined guild: delta (ID: 13)"].
Proof. eexists. split; reflexivity. Qed.

(** ** [main] *)

(** C2, as stated, fails on the outcome: with no token in the environment
    [main] prints and returns, and the interpreter ends with status 0. *)
Lemma C2_missing_token_exits_zero :
  w_environ sample_world !! "DISCORD_TOKEN" = None /\
  run_script reliable sample_world
  = (Some 0,
     add_stdout "Error: DISCORD_TOKEN environment variable not set!"
       sample_world).
Proof. split; reflexivity. Qed.

(** C2 (amended). If the token is absent from the environment, [main]
    prints the diagnostic and returns without a single call to the
    transport library (no start, so no connection attempt); the process
    then ends normally, with status 0. *)
Theorem C2_missing_token_aborts_startup (plat : Platform) (w : World) :
  w_environ w !! "DISCORD_TOKEN" = None ->
  main plat w
    = (Ret tt,
       add_stdout "Error: DISCORD_TOKEN environment variable not set!" w) /\
  w_calls (snd (main plat w)) = w_calls w /\
  w_log (snd (main plat w)) = w_log w /\
  fst (run_script plat w) = Some 0.
Proof.
  intros Htok.
  assert (Hmain : main plat w
    = (Ret tt,
       add_stdout "Error: DISCORD_TOKEN environment variable not set!" w)).
  { unfold main, getenv, mbind, M_bind. rewrite Htok. reflexivity. }
  unfold run_script. rewrite Hmain. repeat split; reflexivity.
Qed.

(** The theorem at a world with an empty environment. *)
Lemma C2_missing_token_witness :
  w_environ sample_world !! "DISCORD_TOKEN" = None /\
  main reliable sample_world
    = (Ret tt,
       add_stdout "Error: DISCORD_TOKEN environment variable not set!"
         sample_world) /\
  w_calls (snd (main reliable sample_world)) = w_calls sample_world /\
  w_log (snd (main reliable sample_world)) = w_log sample_world /\
  fst (run_script reliable sample_world) = Some 0.
Proof.
  split; [reflexivity|].
  apply (C2_missing_token_aborts_startup reliable sample_world).
  reflexivity.
Defined.

(** With a token, [main] does start the bot. *)
Example main_with_token :
  let w := {| w_now := 0; w_environ := {["DISCORD_TOKEN" := "s3cret"]};
              w_traceback := ""; w_log := []; w_stdout := [];
              w_calls := []; w_responded := ∅ |} in
  w_calls (snd (main reliable w)) = [bot_start "s3cret"].
Proof. reflexivity. Qed.

(** ** The notification formatter *)

(** The glyphs, as UTF-8: U+2705, U+274C, U+26A0 U+FE0F and U+2139 U+FE0F,
    each followed by a space. *)
Example glyph_bytes :
  bytes "✅ " = [226; 156; 133; 32]%nat /\
  bytes "❌ " = [226; 157; 140; 32]%nat /\
  bytes "⚠️ " = [226; 154; 160; 239; 184; 143; 32]%nat /\
  bytes "ℹ️ " = [226; 132; 185; 239; 184; 143; 32]%nat.
Proof. repeat split; reflexivity. Qed.

Lemma create_embed_pure (title description : option string) (color : option Z)
    (author : option (gmap string string)) (thumbnail image : option string)
    (footer : option (gmap string string)) (timestamp : option datetime)
    (w w' : World) :
  snd (create_embed title description color author thumbnail image footer
         timestamp w) = w /\
  fst (create_embed title description color author thumbnail image footer
         timestamp w)
  = fst (create_embed title description color author thumbnail image footer
           (Some (default (w_now w) timestamp)) w').
Proof.
  unfold create_embed, utcnow, mbind, M_bind, mret, M_ret.
  destruct timestamp; split; reflexivity.
Qed.

(** C9. The four templates are pure construction: each returns, in an
    unchanged world, the embed whose title is the glyph followed by the
    input title and whose color is the template's constant (success
    0x00ff00, error 0xff0000, warning 0xffaa00, info 0x0099ff); the generic
    constructor defaults the color to 0x2f3136; and nothing of the world but
    the clock's reading, used when no timestamp is given, enters the
    result. *)
Theorem C9_formatter_is_pure_construction (title : string)
    (description : option string) (w w' : World) :
  success_embed title description w
    = (Ret (template_embed "✅ " 0x00ff00 title description (w_now w)), w) /\
  error_embed title description w
    = (Ret (template_embed "❌ " 0xff0000 title description (w_now w)), w) /\
  warning_embed title description w
    = (Ret (template_embed "⚠️ " 0xffaa00 title description (w_now w)), w) /\
  info_embed title description w
    = (Ret (template_embed "ℹ️ " 0x0099ff title description (w_now w)), w) /\
  create_embed (Some title) description None None None None None None w
    = (Ret (Embed_new (Some title) description 0x2f3136 (Some (w_now w))), w) /\
  (forall t d c a th im f ts,
     snd (create_embed t d c a th im f ts w) = w /\
     fst (create_embed t d c a th im f ts w)
     = fst (create_embed t d c a th im f (Some (default (w_now w) ts)) w')).
Proof.
  repeat (split; [reflexivity|]). intros. apply create_embed_pure.
Qed.

(** The generic constructor with every argument given. *)
Example create_embed_full :
  returned
    (create_embed (Some "t") (Some "d") (Some 7)
       (Some {["name" := "n"; "url" := "u"]}) (Some "thumb") (Some "")
       (Some ∅) (Some 99) sample_world)
  = Some {| emb_title := Some "t"; emb_description := Some "d";
            emb_color := 7; emb_timestamp := Some 99; emb_fields := [];
            emb_thumbnail := Some "thumb"; emb_image := None;
            emb_author := Some {| author_name := "n";
                                  author_icon_url := None;
                                  author_url := Some "u" |};
            emb_footer := None |}.
Proof. vm_compute. reflexivity. Qed.

(** * Further properties of the hooks *)

(** ** The loader, interrupted *)

Lemma load_module_outcome (plat : Platform) (module : string) (w : World) :
  load_module plat module w =
  match outcome plat (w_calls w) (load_extension module) with
  | None =>
      (Ret tt, add_log (info_line ("Loaded " +:+ module))
                 (record_call (load_extension module) w))
  | Some e =>
      if isinstance e Exception
      then (Ret tt,
            add_log (error_line ("Failed to load " +:+ module +:+ ": "
                                 +:+ exc_str e))
              (record_call (load_extension module) w))
      else (Raise e, record_call (load_extension module) w)
  end.
Proof.
  unfold load_module, try_except, call, mbind, M_bind.
  destruct (outcome plat (w_calls w) (load_extension module)) as [e|];
    [|reflexivity].
  cbn. destruct (isinstance e Exception); reflexivity.
Qed.

Lemma load_each_cons (plat : Platform) (module : string) (rest : list string)
    (w : World) :
  load_each plat (module :: rest) w =
  match load_module plat module w with
  | (Ret _, w') => load_each plat rest w'
  | (Raise e, w') => (Raise e, w')
  end.
Proof. reflexivity. Qed.

(** X1. The loop of [load_extensions] in full: it either runs through the
    list, every module tried once and given one line, or it is cut short by
    the first failure that is not an [Exception], which it lets through;
    then the module that raised is the last one tried, it gets no line, and
    the modules after it are not touched. *)
Theorem load_each_outcome (plat : Platform) (ms : list string) (w : World) :
  match interrupted_at plat (w_calls w) ms with
  | None =>
      exists w',
        load_each plat ms w = (Ret tt, w') /\
        w_calls w' = (w_calls w ++ map load_extension ms)%list /\
        w_log w' = (w_log w ++ load_report plat (w_calls w) ms)%list
  | Some (i, e) =>
      exists w',
        load_each plat ms w = (Raise e, w') /\
        isinstance e Exception = false /\
        (i < length ms)%nat /\
        w_calls w' = (w_calls w ++ map load_extension (take (S i) ms))%list /\
        w_log w' = (w_log w ++ load_report plat (w_calls w) (take i ms))%list
  end.
Proof.
  revert w. induction ms as [|module rest IH]; intros w.
  - cbn. exists w. rewrite !app_nil_r. auto.
  - cbn [interrupted_at]. rewrite load_each_cons, load_module_outcome.
    destruct (outcome plat (w_calls w) (load_extension module)) as [e|] eqn:Ho.
    + destruct (isinstance e Exception) eqn:He.
      * specialize (IH (add_log (error_line ("Failed to load " +:+ module
                                  +:+ ": " +:+ exc_str e))
                          (record_call (load_extension module) w))).
        cbn [w_calls add_log record_call w_log] in IH.
        destruct (interrupted_at plat (w_calls w ++ [load_extension module]) rest)
          as [[i e']|]; cbn [fmap option_fmap option_map prod_map fst snd id].
        -- destruct IH as (w' & Hrun & Hexc & Hi & Hcalls & Hlog).
           exists w'. split; [exact Hrun|]. split; [exact Hexc|].
           split; [cbn; lia|].
           rewrite Hcalls, Hlog. cbn. rewrite Ho, <- !app_assoc. auto.
        -- destruct IH as (w' & Hrun & Hcalls & Hlog).
           exists w'. split; [exact Hrun|].
           rewrite Hcalls, Hlog. cbn. rewrite Ho, <- !app_assoc. auto.
      * eexists. split; [reflexivity|]. split; [exact He|].
        split; [cbn; lia|]. cbn. rewrite app_nil_r. auto.
    + specialize (IH (add_log (info_line ("Loaded " +:+ module))
                        (record_call (load_extension module) w))).
      cbn [w_calls add_log record_call w_log] in IH.
      destruct (interrupted_at plat (w_calls w ++ [load_extension module]) rest)
        as [[i e']|]; cbn [fmap option_fmap option_map prod_map fst snd id].
      * destruct IH as (w' & Hrun & Hexc & Hi & Hcalls & Hlog).
        exists w'. split; [exact Hrun|]. split; [exact Hexc|].
        split; [cbn; lia|].
        rewrite Hcalls, Hlog. cbn. rewrite Ho, <- !app_assoc. auto.
      * destruct IH as (w' & Hrun & Hcalls & Hlog).
        exists w'. split; [exact Hrun|].
        rewrite Hcalls, Hlog. cbn. rewrite Ho, <- !app_assoc. auto.
Qed.

(** The third module cancelled: two lines, three attempts. *)
Example load_extensions_cancelled :
  let plat := failing (is_load_of "cogs.fun") cancelled in
  interrupted_at plat [] modules = Some (2%nat, cancelled) /\
  exists w',
    load_extensions plat sample_world = (Raise cancelled, w') /\
    w_calls w' = [load_extension "cogs.moderation";
                  load_extension "cogs.utility"; load_extension "cogs.fun"] /\
    w_log w' = [info_line "Loaded cogs.moderation";
                info_line "Loaded cogs.utility"].
Proof. split; [reflexivity|]. eexists. repeat split; reflexivity. Qed.

(** ** [setup_hook] in full *)

(** X2. As long as loading fails with [Exception]s only, [setup_hook]
    tries the six modules and then the sync, whatever the modules did. A
    sync that returns is logged with its count, one that raises an
    [Exception] is logged as failed, and in both cases the hook ends with
    "Bot setup completed!" and returns; anything else the sync raises
    leaves the hook, and the closing line is not written. *)
Theorem setup_hook_outcome (plat : Platform) (self : Bot) (w : World) :
  (forall module, failures_are_exceptions plat (load_extension module)) ->
  let before := (w_calls w ++ map load_extension modules)%list in
  let loaded :=
    (w_log w ++ [info_line "Starting bot setup..."]
     ++ load_report plat (w_calls w) modules)%list in
  exists w1,
    w_calls w1 = (before ++ [tree_sync])%list /\
    match outcome plat before tree_sync with
    | None =>
        setup_hook plat self w = (Ret tt, w1) /\
        w_log w1 =
          (loaded ++ [info_line ("Synced " +:+ pretty (synced plat before)
                                 +:+ " command(s)");
                      info_line "Bot setup completed!"])%list
    | Some e =>
        if isinstance e Exception then
          setup_hook plat self w = (Ret tt, w1) /\
          w_log w1 =
            (loaded ++ [error_line ("Failed to sync commands: " +:+ exc_str e);
                        info_line "Bot setup completed!"])%list
        else
          setup_hook plat self w = (Raise e, w1) /\ w_log w1 = loaded
    end.
Proof.
  intros Hexc. cbv zeta.
  unfold setup_hook, load_extensions.
  set (w0 := add_log (info_line "Starting bot setup...") w).
  destruct (load_each_run plat modules w0 Hexc)
    as (w' & Hrun & Hcalls & Hlog & _ & _).
  rewrite (bind_ret _ _ w w0 tt) by reflexivity.
  rewrite (bind_ret _ _ _ _ _ Hrun).
  change (w_calls w0) with (w_calls w) in Hcalls, Hlog.
  change (w_log w0) with (w_log w ++ [info_line "Starting bot setup..."])%list
    in Hlog.
  rewrite <- Hcalls.
  unfold try_except, sync, mbind, M_bind.
  destruct (outcome plat (w_calls w') tree_sync) as [e|].
  - cbn [find fst snd]. destruct (isinstance e Exception); eexists;
      (split; cycle 1);
      [ split; [reflexivity|] | | split; [reflexivity|] | ];
      cbn [w_log w_calls add_log record_call];
      rewrite ?Hlog, <- ?app_assoc; reflexivity.
  - eexists. split; cycle 1.
    + split; [reflexivity|]. cbn [w_log add_log record_call].
      rewrite Hlog, <- ?app_assoc. reflexivity.
    + reflexivity.
Qed.

(** The theorem where every call goes through. *)
Lemma setup_hook_outcome_witness :
  (forall module, failures_are_exceptions reliable (load_extension module)) /\
  let before := (w_calls sample_world ++ map load_extension modules)%list in
  let loaded :=
    (w_log sample_world ++ [info_line "Starting bot setup..."]
     ++ load_report reliable (w_calls sample_world) modules)%list in
  exists w1,
    w_calls w1 = (before ++ [tree_sync])%list /\
    match outcome reliable before tree_sync with
    | None =>
        setup_hook reliable sample_bot sample_world = (Ret tt, w1) /\
        w_log w1 =
          (loaded ++ [info_line ("Synced " +:+ pretty (synced reliable before)
                                 +:+ " command(s)");
                      info_line "Bot setup completed!"])%list
    | Some e =>
        if isinstance e Exception then
          setup_hook reliable sample_bot sample_world = (Ret tt, w1) /\
          w_log w1 =
            (loaded ++ [error_line ("Failed to sync commands: " +:+ exc_str e);
                        info_line "Bot setup completed!"])%list
        else
          setup_hook reliable sample_bot sample_world = (Raise e, w1) /\
          w_log w1 = loaded
    end.
Proof.
  assert (H : forall module,
    failures_are_exceptions reliable (load_extension module))
    by (intros module before e; discriminate).
  split; [exact H|].
  exact (setup_hook_outcome reliable sample_bot sample_world H).
Defined.

(** ** [on_ready] in full *)

Lemma float_mul_not_finite (x : float) :
  is_finite x = false -> is_finite (float_mul x (float_of_int 1000)) = false.
Proof.
  destruct x as [s|s| |s m e]; try discriminate; intros _;
    [destruct s|]; reflexivity.
Qed.

(** X3. With a latency that is not a number (infinite until the first
    heartbeat is acknowledged, or NaN) [on_ready] raises at [round], an
    [OverflowError] or a [ValueError], before it has logged anything or set
    the presence: the world is untouched. *)
Theorem on_ready_without_latency (plat : Platform) (self : Bot) (w : World) :
  is_finite (latency self) = false ->
  exists e,
    on_ready plat self w = (Raise e, w) /\
    (exc_class e = OverflowError \/ exc_class e = ValueError).
Proof.
  intros Hlat. apply float_mul_not_finite in Hlat.
  unfold on_ready, on_ready_embed, utcnow, lift, mbind, M_bind.
  destruct (float_mul (latency self) (float_of_int 1000)) as [s|s| |s m e];
    try discriminate; cbn; eexists; split; try reflexivity; auto.
Qed.

Lemma on_ready_without_latency_witness :
  is_finite (latency unacked_bot) = false /\
  exists e,
    on_ready reliable unacked_bot sample_world = (Raise e, sample_world) /\
    (exc_class e = OverflowError \/ exc_class e = ValueError).
Proof.
  split; [reflexivity|].
  apply (on_ready_without_latency reliable unacked_bot sample_world).
  reflexivity.
Defined.

(** X4. With a latency that rounds, [on_ready] logs the readiness line and
    then sets the presence "watching <guild count> servers"; the presence
    call is not guarded, so whatever it raises leaves the hook, the line
    already logged. *)
Theorem on_ready_outcome (plat : Platform) (self : Bot) (w : World) (ms : Z) :
  py_round (float_mul (latency self) (float_of_int 1000)) = Ret ms ->
  on_ready plat self w =
  (match outcome plat (w_calls w) (presence self) with
   | None => Ret tt
   | Some e => Raise e
   end,
   record_call (presence self)
     (add_log (info_line ("Bot is ready! Logged in as " +:+ user_name self)) w)).
Proof.
  intros Hms.
  destruct (on_ready_embed_run self w ms Hms) as (embed & Hrun & _).
  unfold on_ready. rewrite (bind_ret _ _ _ _ _ Hrun).
  unfold logger_info, mbind, M_bind. rewrite log_line_run, call_run.
  reflexivity.
Qed.

Lemma on_ready_outcome_witness :
  py_round (float_mul (latency sample_bot) (float_of_int 1000)) = Ret 42 /\
  on_ready reliable sample_bot sample_world =
  (match outcome reliable (w_calls sample_world) (presence sample_bot) with
   | None => Ret tt
   | Some e => Raise e
   end,
   record_call (presence sample_bot)
     (add_log (info_line ("Bot is ready! Logged in as "
                          +:+ user_name sample_bot)) sample_world)).
Proof.
  assert (H : py_round (float_mul (latency sample_bot) (float_of_int 1000))
              = Ret 42) by (vm_compute; reflexivity).
  split; [exact H|].
  exact (on_ready_outcome reliable sample_bot sample_world 42 H).
Defined.

(** ** The classifiers: texts, logging, and what is kept from the user *)

Lemma app_command_error_embed_run (error : PyExc) (w : World) :
  exists embed w1,
    app_command_error_embed error w = (Ret embed, w1) /\
    embed = set_description
              (default "" (legacy_template (interaction_kind error)))
              (Embed_new (Some "❌ Command Error") None 0xff0000
                 (Some (w_now w))) /\
    is_Some (legacy_template (interaction_kind error)) /\
    w_log w1 =
      (w_log w ++
       match interaction_kind error with
       | Unexpected detail =>
           [error_line ("Unexpected error in slash command: " +:+ detail);
            error_line (w_traceback w)]
       | _ => []
       end)%list.
Proof.
  unfold interaction_kind, app_command_error_embed.
  repeat case_match;
    (eexists; eexists; split; [reflexivity|]);
    repeat split; eauto; cbn; rewrite <- ?app_assoc, ?app_nil_r; reflexivity.
Qed.

(** X5. On the interaction path the description is the text of the
    error's kind, the same text the legacy path uses for it: the two
    permission texts, the cooldown text, and the generic text for every
    other error (argument errors and unknown commands included, which this
    path does not single out). *)
Theorem interaction_description_is_template (plat : Platform) (self : Bot)
    (interaction : nat) (error : PyExc) (w : World) :
  exists embed,
    sent_between w (snd (on_app_command_error plat self interaction error w))
      = [embed] /\
    is_Some (emb_description embed) /\
    emb_description embed = legacy_template (interaction_kind error) /\
    interaction_kind error <> NotFound /\
    interaction_kind error <> BadArgument /\
    (forall p, interaction_kind error <> MissingArgument p).
Proof.
  destruct (app_command_error_embed_run error w)
    as (embed & w1 & Hrun & Hemb & [d Hd] & _).
  destruct (app_command_error_embed_total error w)
    as (embed' & w1' & Hrun' & _ & Hc1 & _).
  rewrite Hrun in Hrun'. injection Hrun' as <- <-.
  destruct (on_app_command_error_run plat self interaction error w)
    as (embed' & w1' & w2 & Hrun' & Hh & Hcalls & _).
  rewrite Hrun in Hrun'. injection Hrun' as <- <-.
  exists embed. rewrite Hh. cbn [snd]. rewrite Hc1 in Hcalls.
  rewrite (sent_between_app _ _ _ Hcalls).
  split; [unfold delivery; destruct (bool_decide _); reflexivity|].
  split; [subst embed; cbn; eauto|].
  split; [subst embed; rewrite Hd; reflexivity|].
  unfold interaction_kind. repeat split; try intros p; repeat case_match;
    discriminate.
Qed.

(** X6. What the classifiers log: nothing for an error they have a text
    for (and nothing for a legacy [NotFound]); for any other error exactly
    two lines at error severity, the first naming the command (legacy path)
    with the error's text, the second the traceback. A send that fails adds
    nothing. *)
Theorem classifiers_log_only_the_unexpected (plat : Platform) (self : Bot)
    (ctx : Context) (interaction : nat) (error : PyExc) (w : World) :
  w_log (snd (on_command_error plat self ctx error w)) =
    (w_log w ++
     match legacy_kind error with
     | Unexpected detail =>
         [error_line ("Unexpected error in command "
                      +:+ str_opt (ctx_command ctx) +:+ ": " +:+ detail);
          error_line (w_traceback w)]
     | _ => []
     end)%list /\
  w_log (snd (on_app_command_error plat self interaction error w)) =
    (w_log w ++
     match interaction_kind error with
     | Unexpected detail =>
         [error_line ("Unexpected error in slash command: " +:+ detail);
          error_line (w_traceback w)]
     | _ => []
     end)%list.
Proof.
  split.
  - destruct (isinstance error commands_CommandNotFound) eqn:E.
    + pose proof (proj2 (legacy_kind_NotFound error) E) as Hk.
      unfold on_command_error. rewrite E, Hk. cbn. rewrite app_nil_r.
      reflexivity.
    + assert (Hk : legacy_kind error <> NotFound).
      { intros Hk. apply legacy_kind_NotFound in Hk. congruence. }
      destruct (on_command_error_run plat self ctx error w E)
        as (embed & w1 & w2 & Hrun & Hh & _ & Hlog & _).
      destruct (command_error_embed_run ctx error w Hk)
        as (embed' & w1' & Hrun' & _ & _ & _ & _ & _ & Hlog').
      rewrite Hrun in Hrun'. injection Hrun' as <- <-.
      rewrite Hh. cbn [snd]. rewrite Hlog. exact Hlog'.
  - destruct (on_app_command_error_run plat self interaction error w)
      as (embed & w1 & w2 & Hrun & Hh & _ & Hlog & _).
    destruct (app_command_error_embed_run error w)
      as (embed' & w1' & Hrun' & _ & _ & Hlog').
    rewrite Hrun in Hrun'. injection Hrun' as <- <-.
    rewrite Hh. cbn [snd]. rewrite Hlog. exact Hlog'.
Qed.

Lemma command_error_embed_ignores_text (ctx : Context) (error : PyExc)
    (s : string) (w : World) :
  returned (command_error_embed ctx (with_str s error) w)
  = returned (command_error_embed ctx error w).
Proof.
  unfold command_error_embed, isinstance. cbn [exc_class with_str].
  repeat case_match; reflexivity.
Qed.

Lemma app_command_error_embed_ignores_text (error : PyExc) (s : string)
    (w : World) :
  returned (app_command_error_embed (with_str s error) w)
  = returned (app_command_error_embed error w).
Proof.
  unfold app_command_error_embed, isinstance. cbn [exc_class with_str].
  repeat case_match; reflexivity.
Qed.

Lemma on_command_error_sent (plat : Platform) (self : Bot) (ctx : Context)
    (error : PyExc) (w : World) :
  sent_between w (snd (on_command_error plat self ctx error w)) =
  if isinstance error commands_CommandNotFound then []
  else option_list (returned (command_error_embed ctx error w)).
Proof.
  destruct (isinstance error commands_CommandNotFound) eqn:E.
  - unfold on_command_error. rewrite E. apply sent_between_same. reflexivity.
  - destruct (on_command_error_run plat self ctx error w E)
      as (embed & w1 & w2 & Hrun & Hh & Hcalls & _).
    rewrite Hh. cbn [snd]. rewrite (sent_between_app _ _ _ Hcalls).
    unfold returned. rewrite Hrun. reflexivity.
Qed.

Lemma on_app_command_error_sent (plat : Platform) (self : Bot)
    (interaction : nat) (error : PyExc) (w : World) :
  sent_between w (snd (on_app_command_error plat self interaction error w))
  = option_list (returned (app_command_error_embed error w)).
Proof.
  destruct (app_command_error_embed_total error w)
    as (embed & w1 & Hrun & _ & Hc1 & _).
  destruct (on_app_command_error_run plat self interaction error w)
    as (embed' & w1' & w2 & Hrun' & Hh & Hcalls & _).
  rewrite Hrun in Hrun'. injection Hrun' as <- <-.
  rewrite Hh. cbn [snd]. rewrite Hc1 in Hcalls.
  rewrite (sent_between_app _ _ _ Hcalls).
  unfold returned. rewrite Hrun.
  unfold delivery. destruct (bool_decide _); reflexivity.
Qed.

(** X7. The text of the error, [str(error)], never reaches the user: on
    either path the notification handed to the platform is the same
    whatever that text is. It goes to the log only. *)
Theorem error_text_is_never_sent (plat : Platform) (self : Bot)
    (ctx : Context) (interaction : nat) (error : PyExc) (s : string)
    (w : World) :
  sent_between w (snd (on_command_error plat self ctx (with_str s error) w))
    = sent_between w (snd (on_command_error plat self ctx error w)) /\
  sent_between w
    (snd (on_app_command_error plat self interaction (with_str s error) w))
    = sent_between w
        (snd (on_app_command_error plat self interaction error w)).
Proof.
  rewrite !on_command_error_sent, !on_app_command_error_sent.
  rewrite command_error_embed_ignores_text,
    app_command_error_embed_ignores_text.
  split; reflexivity.
Qed.

(** X8. The cooldown text shows [retry_after] in hundredths of a second,
    rounded to the nearest, a tie going to the even hundredth: exactly when
    the exponent is non-negative, within half a hundredth otherwise. *)
Theorem cooldown_text_is_nearest_hundredth (ctx : Context) (error : PyExc)
    (w : World) (sign : bool) (m : positive) (e : Z) :
  isinstance error commands_CommandOnCooldown = true ->
  retry_after error = S754_finite sign m e ->
  exists embed w1 n,
    command_error_embed ctx error w = (Ret embed, w1) /\
    emb_description embed =
      Some ("Command is on cooldown. Try again in "
            +:+ ((if sign then "-" else "") +:+ hundredths n)
            +:+ " seconds.") /\
    0 <= n /\
    (0 <= e -> n = 100 * Z.pos m * 2 ^ e) /\
    (e < 0 ->
     Z.abs (2 * (n * 2 ^ (- e) - 100 * Z.pos m)) <= 2 ^ (- e) /\
     (Z.abs (2 * (n * 2 ^ (- e) - 100 * Z.pos m)) = 2 ^ (- e) ->
      Z.even n = true)).
Proof.
  intros Hcls Hr.
  destruct (legacy_kind_by_class error) as (_ & _ & _ & Hk & _).
  specialize (Hk Hcls).
  assert (Hnf : legacy_kind error <> NotFound) by (rewrite Hk; discriminate).
  destruct (command_error_embed_run ctx error w Hnf)
    as (embed & w1 & Hrun & Hemb & _).
  exists embed, w1, (round_half_even (100 * Z.pos m) e).
  split; [exact Hrun|].
  assert (Hm : 0 <= 100 * Z.pos m) by lia.
  split; [|split; [|split]].
  - subst embed. rewrite Hk, Hr. reflexivity.
  - apply round_half_even_nonneg, Hm.
  - intros He. apply round_half_even_exact; assumption.
  - intros He. exact (round_half_even_nearest (100 * Z.pos m) e He).
Qed.

(** The theorem at 2.675 seconds, which is printed as 2.67. *)
Lemma cooldown_text_witness :
  let error := sample_error commands_CommandOnCooldown in
  isinstance error commands_CommandOnCooldown = true /\
  retry_after error = S754_finite false 6023564501608038 (-51) /\
  exists embed w1 n,
    command_error_embed sample_ctx error sample_world = (Ret embed, w1) /\
    emb_description embed =
      Some ("Command is on cooldown. Try again in "
            +:+ ("" +:+ hundredths n) +:+ " seconds.") /\
    0 <= n /\
    (0 <= -51 -> n = 100 * Z.pos 6023564501608038 * 2 ^ (-51)) /\
    (-51 < 0 ->
     Z.abs (2 * (n * 2 ^ (- -51) - 100 * Z.pos 6023564501608038))
       <= 2 ^ (- -51) /\
     (Z.abs (2 * (n * 2 ^ (- -51) - 100 * Z.pos 6023564501608038))
        = 2 ^ (- -51) -> Z.even n = true)).
Proof.
  cbv zeta. split; [reflexivity|]. split; [reflexivity|].
  exact (cooldown_text_is_nearest_hundredth sample_ctx
           (sample_error commands_CommandOnCooldown) sample_world
           false 6023564501608038 (-51) eq_refl eq_refl).
Defined.

(** ** [create_embed], part by part *)


(** An author without a name, a footer without an icon. *)
Example create_embed_missing_keys :
  (fun e => (emb_author e, emb_footer e))
    <$> returned
          (create_embed None None None (Some {["url" := "u"]}) None None
             (Some {["text" := "t"]}) None sample_world)
  = Some (Some {| author_name := "None"; author_icon_url := None;
                  author_url := Some "u" |},
          Some {| footer_text := Some "t"; footer_icon_url := None |}).
Proof. vm_compute. reflexivity. Qed.

(** ** [main] with a token *)

Lemma exception_is_no_interrupt (e : PyExc) :
  isinstance e Exception = true -> isinstance e KeyboardInterrupt = false.
Proof. destruct e as [c s r p]. destruct c; cbn; (discriminate || reflexivity). Qed.

(** X10. A token that is set but empty is as good as none: [main] prints
    the same diagnostic and makes no call. *)
Theorem main_empty_token (plat : Platform) (w : World) :
  w_environ w !! "DISCORD_TOKEN" = Some "" ->
  main plat w
  = (Ret tt,
     add_stdout "Error: DISCORD_TOKEN environment variable not set!" w).
Proof.
  intros Htok. unfold main, getenv, mbind, M_bind. rewrite Htok. reflexivity.
Qed.

Lemma main_empty_token_witness :
  w_environ (world_with_token "") !! "DISCORD_TOKEN" = Some "" /\
  main reliable (world_with_token "")
  = (Ret tt,
     add_stdout "Error: DISCORD_TOKEN environment variable not set!"
       (world_with_token "")).
Proof.
  split; [reflexivity|].
  apply (main_empty_token reliable (world_with_token "")). reflexivity.
Defined.

Lemma main_given_token (plat : Platform) (w : World) (token : string) :
  w_environ w !! "DISCORD_TOKEN" = Some token -> token <> "" ->
  main plat w =
  try_except (call plat (bot_start token))
    [(fun e => isinstance e KeyboardInterrupt, fun _ => call plat bot_close);
     (fun e => isinstance e Exception,
      fun e => logging_error ("Fatal error: " +:+ exc_str e) ;;
               call plat bot_close)] w.
Proof.
  intros Htok Hne. unfold main, getenv. unfold mbind at 1, M_bind at 1.
  rewrite Htok. cbn [truthy default negb].
  rewrite bool_decide_eq_false_2 by exact Hne. reflexivity.
Qed.

(** X11. When the start fails with an [Exception], [main] logs
    "Fatal error: <text>" on the root logger and closes the bot; what
    [main] then returns or raises is what the close does, so with a close
    that goes through the process ends with status 0. *)
Theorem main_fatal_error_is_logged_and_closed (plat : Platform) (w : World)
    (token : string) (e : PyExc) :
  w_environ w !! "DISCORD_TOKEN" = Some token -> token <> "" ->
  outcome plat (w_calls w) (bot_start token) = Some e ->
  isinstance e Exception = true ->
  main plat w =
    (match outcome plat (w_calls w ++ [bot_start token])%list bot_close with
     | None => Ret tt
     | Some e' => Raise e'
     end,
     record_call bot_close
       (add_log (root_error ("Fatal error: " +:+ exc_str e))
          (record_call (bot_start token) w))) /\
  (outcome plat (w_calls w ++ [bot_start token])%list bot_close = None ->
   fst (run_script plat w) = Some 0).
Proof.
  intros Htok Hne Hstart He.
  assert (Hmain : main plat w =
    (match outcome plat (w_calls w ++ [bot_start token])%list bot_close with
     | None => Ret tt
     | Some e' => Raise e'
     end,
     record_call bot_close
       (add_log (root_error ("Fatal error: " +:+ exc_str e))
          (record_call (bot_start token) w)))).
  { rewrite (main_given_token plat w token Htok Hne).
    unfold try_except. rewrite call_run, Hstart. cbn [find fst snd].
    rewrite (exception_is_no_interrupt e He), He.
    unfold logging_error, log_line, call, mbind, M_bind.
    destruct (outcome plat (w_calls w ++ [bot_start token])%list bot_close)
      eqn:Hc; cbn; rewrite Hc; reflexivity. }
  split; [exact Hmain|].
  intros Hclose. unfold run_script. rewrite Hmain, Hclose. reflexivity.
Qed.

Lemma main_fatal_error_witness :
  let plat := failing is_start login_failed in
  let w := world_with_token "s3cret" in
  w_environ w !! "DISCORD_TOKEN" = Some "s3cret" /\ "s3cret" <> "" /\
  outcome plat (w_calls w) (bot_start "s3cret") = Some login_failed /\
  isinstance login_failed Exception = true /\
  main plat w =
    (match outcome plat (w_calls w ++ [bot_start "s3cret"])%list bot_close with
     | None => Ret tt
     | Some e' => Raise e'
     end,
     record_call bot_close
       (add_log (root_error ("Fatal error: " +:+ exc_str login_failed))
          (record_call (bot_start "s3cret") w))) /\
  (outcome plat (w_calls w ++ [bot_start "s3cret"])%list bot_close = None ->
   fst (run_script plat w) = Some 0).
Proof.
  cbv zeta. split; [reflexivity|]. split; [discriminate|].
  split; [reflexivity|]. split; [reflexivity|].
  apply (main_fatal_error_is_logged_and_closed
           (failing is_start login_failed) (world_with_token "s3cret")
           "s3cret" login_failed);
    (reflexivity || discriminate).
Defined.

(** X12. A [KeyboardInterrupt] out of the start closes the bot and logs
    nothing; any other exception that is not an [Exception] (a
    cancellation, a [SystemExit]) leaves [main] as it is, the bot not
    closed. *)
Theorem main_interrupts (plat : Platform) (w : World) (token : string)
    (e : PyExc) :
  w_environ w !! "DISCORD_TOKEN" = Some token -> token <> "" ->
  outcome plat (w_calls w) (bot_start token) = Some e ->
  isinstance e Exception = false ->
  main plat w =
    if isinstance e KeyboardInterrupt then
      (match outcome plat (w_calls w ++ [bot_start token])%list bot_close with
       | None => Ret tt
       | Some e' => Raise e'
       end,
       record_call bot_close (record_call (bot_start token) w))
    else (Raise e, record_call (bot_start token) w).
Proof.
  intros Htok Hne Hstart He.
  rewrite (main_given_token plat w token Htok Hne).
  unfold try_except. rewrite call_run, Hstart. cbn [find fst snd].
  destruct (isinstance e KeyboardInterrupt); cbn [find fst snd].
  - rewrite call_run. reflexivity.
  - rewrite He. reflexivity.
Qed.

Lemma main_interrupts_witness :
  let plat := failing is_start interrupt in
  let w := world_with_token "s3cret" in
  w_environ w !! "DISCORD_TOKEN" = Some "s3cret" /\ "s3cret" <> "" /\
  outcome plat (w_calls w) (bot_start "s3cret") = Some interrupt /\
  isinstance interrupt Exception = false /\
  main plat w =
    if isinstance interrupt KeyboardInterrupt then
      (match outcome plat (w_calls w ++ [bot_start "s3cret"])%list bot_close with
       | None => Ret tt
       | Some e' => Raise e'
       end,
       record_call bot_close (record_call (bot_start "s3cret") w))
    else (Raise interrupt, record_call (bot_start "s3cret") w).
Proof.
  cbv zeta. split; [reflexivity|]. split; [discriminate|].
  split; [reflexivity|]. split; [reflexivity|].
  apply (main_interrupts (failing is_start interrupt)
           (world_with_token "s3cret") "s3cret" interrupt);
    (reflexivity || discriminate).
Defined.

(** The two runs side by side: an interrupt closes, a cancellation does
    not. *)
Example main_interrupt_and_cancellation :
  w_calls (snd (main (failing is_start interrupt) (world_with_token "s3cret")))
    = [bot_start "s3cret"; bot_close] /\
  main (failing is_start cancelled) (world_with_token "s3cret")
    = (Raise cancelled, record_call (bot_start "s3cret")
                          (world_with_token "s3cret")).
Proof. split; reflexivity. Qed.
